(** * Scaled grouped matrix multiplication: configuration pruning,
      eligibility and the persistent tile loop

    A shallow embedding of [torch/_inductor/kernel/mm_scaled_grouped.py]:
    the two configuration families, [early_config_prune],
    [grouped_mm_args], [can_use_triton_kernel], the shape analysis of
    [tuned_scaled_grouped_mm] and the persistent kernel of
    [triton_scaled_grouped_mm_source], followed by the properties of the
    specification checked against them. *)

From Stdlib Require Import ZArith Lia.
From stdpp Require Import base tactics option list numbers strings gmap.

Local Open Scope Z_scope.

(** ** Python values and exceptions *)

Module Py.

(** The exceptions the modelled code can raise. *)
Inductive Exn : Type :=
| AssertionError (msg : option string)
| IndexError
| KeyError (key : string)
| ValueError
| TypeError
| AttributeError
| ZeroDivisionError.

#[global] Instance Exn_eq_dec : EqDecision Exn.
Proof. solve_decision. Defined.

(** A computation either raises or returns. *)
Definition M (A : Type) : Type := Exn + A.

#[global] Instance M_eq_dec `{EqDecision A} : EqDecision (M A).
Proof. unfold M. apply _. Defined.

Definition ret {A} (a : A) : M A := inr a.
Definition raise {A} (e : Exn) : M A := inl e.
Definition bind {A B} (m : M A) (k : A → M B) : M B :=
  match m with
  | inl e => inl e
  | inr a => k a
  end.

(** [assert cond, msg] *)
Definition assert (cond : bool) (msg : option string) : M unit :=
  if cond then ret tt else raise (AssertionError msg).

(** [a // b] on Python integers: floor division, raising on a zero
    divisor. *)
Definition floordiv (a b : Z) : M Z :=
  if decide (b = 0) then raise ZeroDivisionError else ret (a `div` b).

(** [l[i]] with Python's negative indices. *)
Definition index {A} (l : list A) (i : Z) : M A :=
  let n := Z.of_nat (length l) in
  let j := if decide (i < 0) then n + i else i in
  if decide (0 ≤ j < n) then
    match l !! Z.to_nat j with
    | Some a => ret a
    | None => raise IndexError
    end
  else raise IndexError.

(** [d[key]] on a dictionary with string keys. *)
Definition getitem {A} (d : gmap string A) (key : string) : M A :=
  match d !! key with
  | Some a => ret a
  | None => raise (KeyError key)
  end.

(** [a and b]: the right operand is evaluated only when the left one is
    true. *)
Definition and (a b : M bool) : M bool :=
  bind a (fun x => if x : bool then b else ret false).

(** Unpacking of a sequence into two and into three names. *)
Definition unpack2 {A} (l : list A) : M (A * A) :=
  match l with
  | [a; b] => ret (a, b)
  | _ => raise ValueError
  end.

Definition unpack3 {A} (l : list A) : M (A * A * A) :=
  match l with
  | [a; b; c] => ret (a, b, c)
  | _ => raise ValueError
  end.

End Py.

Notation "'let*' x ':=' m 'in' k" := (Py.bind m (fun x => k))
  (at level 10, x pattern, m at level 100, k at level 200).

(** ** Tensors and layouts *)

Inductive dtype : Type :=
| float8_e4m3fn | float8_e5m2 | bfloat16 | float16 | float32 | int32 | int64.

#[global] Instance dtype_eq_dec : EqDecision dtype.
Proof. solve_decision. Defined.

(** What the lowering reads of a realized [TensorBox]. *)
Record TensorBox : Type := mkTensorBox {
  get_size : list Z;
  get_stride : list Z;
  get_dtype : dtype;
  get_device : string;
}.

(** [FixedLayout(device, dtype, size)] *)
Record Layout : Type := FixedLayout {
  layout_device : string;
  layout_dtype : dtype;
  layout_size : list Z;
}.

#[global] Instance Layout_eq_dec : EqDecision Layout.
Proof. solve_decision. Defined.

Definition is_none {A} (o : option A) : bool :=
  match o with None => true | Some _ => false end.

(** ** Configurations *)

(** The [Config] dataclass: three fields and nothing else. *)
Record Config : Type := mkConfig {
  kwargs : gmap string Z;
  num_stages : Z;
  num_warps : Z;
}.

#[global] Instance Config_eq_dec : EqDecision Config.
Proof. solve_decision. Defined.

(** The value of an attribute of a [Config] instance. *)
Inductive AttrVal : Type :=
| VInt (z : Z)
| VDict (d : gmap string Z).

(** Attribute lookup on the dataclass: only its declared fields exist. *)
Definition Config_attr (c : Config) (name : string) : option AttrVal :=
  if decide (name = "kwargs") then Some (VDict (kwargs c))
  else if decide (name = "num_stages") then Some (VInt (num_stages c))
  else if decide (name = "num_warps") then Some (VInt (num_warps c))
  else None.

(** [getattr(config, name, default)] *)
Definition getattr (c : Config) (name : string) (default : AttrVal) : AttrVal :=
  from_option id default (Config_attr c name).

(** [v >= n] for an attribute value and an integer: a dictionary does not
    compare with an integer. *)
Definition attr_ge (v : AttrVal) (n : Z) : Py.M bool :=
  match v with
  | VInt z => Py.ret (bool_decide (n ≤ z))
  | VDict _ => Py.raise Py.TypeError
  end.

(** [a // v] for an attribute value. *)
Definition attr_floordiv (a : Z) (v : AttrVal) : Py.M Z :=
  match v with
  | VInt z => Py.floordiv a z
  | VDict _ => Py.raise Py.TypeError
  end.

Definition _NV_CONFIGS : list Config :=
  block_size_m ← [64; 128];
  block_size_n ← [64; 128; 256];
  block_size_k ← [64; 128; 256];
  stages ← [3; 4];
  warps ← [4; 8];
  [ mkConfig
      (<["BLOCK_M" := block_size_m]>
       (<["BLOCK_N" := block_size_n]>
        (<["BLOCK_K" := block_size_k]>
         (<["NUM_CONSUMER_GROUPS" := 1]> ∅))))
      stages warps ].

Definition _AMD_CONFIGS : list Config :=
  block_size_m ← [32; 64; 128];
  block_size_n ← [32; 64; 128; 256];
  block_size_k ← [128; 256];
  stages ← [1; 2];
  '(warps, waves_per_cu) ← [(4, 1); (8, 2); (16, 4)];
  matrix_instr_nonkdim ← [16];
  [ mkConfig
      (<["BLOCK_M" := block_size_m]>
       (<["BLOCK_N" := block_size_n]>
        (<["BLOCK_K" := block_size_k]>
         (<["waves_per_eu" := waves_per_cu]>
          (<["matrix_instr_nonkdim" := matrix_instr_nonkdim]>
           (<["NUM_CONSUMER_GROUPS" := 1]> ∅))))))
      stages warps ].

(** ** The environment of the lowering

    Device and toolchain queries the module imports from elsewhere. *)

Record Env : Type := mkEnv {
  hip : bool;                     (* torch.version.hip is set *)
  get_gpu_shared_memory : Z;
  get_num_sms : Z;
  has_triton_tma_device : bool;
  use_aten_gemm_kernels : bool;
  next_power_of_2 : Z → Z;        (* runtime_utils.next_power_of_2 *)
  check_supported_striding : TensorBox → TensorBox → Py.M unit;
  _is_static_problem : Layout → bool * bool;
}.

Definition scaled_grouped_mm_configs (env : Env) : list Config :=
  if hip env then _AMD_CONFIGS else _NV_CONFIGS.

(** ** The keyword arguments of the template

    The dictionary [kwargs] built by [tuned_scaled_grouped_mm]; the group
    sizes and strides exist only for a 3-D operand. *)

Record TemplateKwargs : Type := mkKwargs {
  G : Z;
  M : Z;
  N : Z;
  K : Z;
  A_IS_2D : bool;
  B_IS_2D : bool;
  M_IS_DYNAMIC : bool;
  N_IS_DYNAMIC : bool;
  K_IS_DYNAMIC : bool;
  NUM_SMS : Z;
  USE_TMA_LOAD : bool;
  USE_FAST_ACCUM : bool;
  A_SIZE_M : Z;
  A_SIZE_K : Z;
  A_STRIDE_M : Z;
  A_STRIDE_K : Z;
  A_SIZE_G : option Z;
  A_STRIDE_G : option Z;
  SCALE_A_STRIDE_G : option Z;
  B_SIZE_N : Z;
  B_SIZE_K : Z;
  B_STRIDE_N : Z;
  B_STRIDE_K : Z;
  B_SIZE_G : option Z;
  B_STRIDE_G : option Z;
  SCALE_B_STRIDE_G : option Z;
}.

(** ** The pruner *)

(** What one iteration of the loop of [early_config_prune] does with a
    config: append it, or leave through one of the [continue]s, named after
    the numbered comments of the source. *)
Inductive Verdict : Type :=
| Keep
| RejectSharedMemory      (* 1. make sure we have enough smem *)
| RejectMTooBig           (* 2. M tiles that are too big *)
| RejectMTooSmall         (* 3. M tiles that are too small *)
| RejectNTooBig           (* 4. N tiles that are too big *)
| RejectNTooSmall         (* 5. N tiles that are too small *)
| RejectWarpSpec.         (* 6. partition for ws *)

#[global] Instance Verdict_eq_dec : EqDecision Verdict.
Proof. solve_decision. Defined.

(** [dtsize = 1]: the element size the estimate is computed with. *)
Definition dtsize : Z := 1.

Definition required_shared_memory (env : Env)
    (BLOCK_M BLOCK_N BLOCK_K stages : Z) : Z :=
  if hip env then BLOCK_N * BLOCK_K * stages * dtsize
  else (BLOCK_M + BLOCK_N) * BLOCK_K * stages * dtsize.

(** [use_warp_specialization = num_consumer_groups >= 1], with
    [num_consumer_groups = getattr(config, "num_consumer_groups", 0)]. *)
Definition use_warp_specialization (config : Config) : Py.M bool :=
  attr_ge (getattr config "num_consumer_groups" (VInt 0)) 1.

(** The body of the loop of [early_config_prune]. *)
Definition prune_verdict (env : Env) (named_args : TemplateKwargs)
    (config : Config) : Py.M Verdict :=
  let kw := kwargs config in
  let* BLOCK_M := Py.getitem kw "BLOCK_M" in
  let* BLOCK_N := Py.getitem kw "BLOCK_N" in
  let* BLOCK_K := Py.getitem kw "BLOCK_K" in
  let stages := num_stages config in
  let warps := num_warps config in
  let num_consumer_groups := getattr config "num_consumer_groups" (VInt 0) in
  let* M_PER_GROUP :=
    if M_IS_DYNAMIC named_args
    then Py.floordiv (next_power_of_2 env (M named_args)) (G named_args)
    else Py.ret (M named_args) in
  let* N_PER_GROUP :=
    if N_IS_DYNAMIC named_args
    then Py.floordiv (next_power_of_2 env (N named_args)) (G named_args)
    else Py.ret (N named_args) in
  let max_shared_memory := get_gpu_shared_memory env in
  if bool_decide
       (required_shared_memory env BLOCK_M BLOCK_N BLOCK_K stages
        > max_shared_memory)
  then Py.ret RejectSharedMemory else
  let* use_ws := use_warp_specialization config in
  let MIN_M_TILES := if hip env then 32 else 64 in
  if negb use_ws && bool_decide (BLOCK_M > MIN_M_TILES)
     && bool_decide (BLOCK_M > M_PER_GROUP * 2)
  then Py.ret RejectMTooBig else
  if bool_decide (BLOCK_M < 128) && bool_decide (BLOCK_M < M_PER_GROUP `div` 2)
  then Py.ret RejectMTooSmall else
  let num_sm := get_num_sms env in
  let* N_TILES := Py.floordiv N_PER_GROUP BLOCK_N in
  let MIN_N_TILES := if hip env then 32 else 64 in
  if negb use_ws && bool_decide (BLOCK_N > MIN_N_TILES)
     && bool_decide (G named_args * M_PER_GROUP * N_TILES < num_sm)
  then Py.ret RejectNTooBig else
  if bool_decide (BLOCK_N < 128)
     && bool_decide (G named_args * M_PER_GROUP * N_TILES > 2 * num_sm)
  then Py.ret RejectNTooSmall else
  if use_ws then
    if bool_decide (warps ≠ 4) then Py.ret RejectWarpSpec else
    let* m_slice := attr_floordiv BLOCK_M num_consumer_groups in
    let* n_slice := attr_floordiv BLOCK_N num_consumer_groups in
    if bool_decide (m_slice < 64) && bool_decide (n_slice < 256)
    then Py.ret RejectWarpSpec
    else Py.ret Keep
  else Py.ret Keep.

(** The [for config in configs] loop with its accumulator
    [pruned_configs]. *)
Fixpoint prune_loop (env : Env) (named_args : TemplateKwargs)
    (configs pruned_configs : list Config) : Py.M (list Config) :=
  match configs with
  | [] => Py.ret pruned_configs
  | config :: rest =>
      let* v := prune_verdict env named_args config in
      prune_loop env named_args rest
        (match v with
         | Keep => pruned_configs ++ [config]
         | _ => pruned_configs
         end)
  end.

Definition early_config_prune (env : Env) (configs : list Config)
    (named_args : TemplateKwargs) : Py.M (list Config) :=
  prune_loop env named_args configs [].

(** ** The arguments of the lowering

    [realize_inputs] leaves what is read of a tensor unchanged. *)

Definition grouped_mm_args (mat1 mat2 : TensorBox) (offs : option TensorBox)
    (layout : option Layout) (out_dtype : option dtype)
  : Py.M (list Z * list Z * Layout * TensorBox * TensorBox * option TensorBox) :=
  let mat1_size := get_size mat1 in
  let mat2_size := get_size mat2 in
  let m1dim := length mat1_size in
  let m2dim := length mat2_size in
  let* _ := Py.assert (bool_decide (m1dim = 2%nat) || bool_decide (m1dim = 3%nat)) None in
  let* _ := Py.assert (bool_decide (m2dim = 2%nat) || bool_decide (m2dim = 3%nat)) None in
  let* layout :=
    match layout with
    | None =>
        let out_dtype := from_option id (get_dtype mat1) out_dtype in
        let* dims :=
          if bool_decide (m1dim = 2%nat) then
            if bool_decide (m2dim = 2%nat) then
              let* _ := Py.assert (negb (is_none offs)) None in
              match offs with
              | Some o =>
                  let* d0 := Py.index (get_size o) 0 in
                  let* d1 := Py.index mat1_size 0 in
                  let* d2 := Py.index mat2_size 1 in
                  Py.ret [d0; d1; d2]
              | None => Py.raise Py.AttributeError
              end
            else
              let* d0 := Py.index mat1_size 0 in
              let* d1 := Py.index mat2_size (-1) in
              Py.ret [d0; d1]
          else
            if bool_decide (m2dim = 2%nat) then
              let* d0 := Py.index mat1_size 1 in
              let* d1 := Py.index mat2_size 1 in
              Py.ret [d0; d1]
            else
              let* d0 := Py.index mat1_size 0 in
              let* d1 := Py.index mat1_size 1 in
              let* d2 := Py.index mat2_size (-1) in
              Py.ret [d0; d1; d2] in
        Py.ret (FixedLayout (get_device mat1) out_dtype dims)
    | Some l =>
        let* _ := Py.assert (is_none out_dtype)
                    (Some "out_dtype is ignored if layout is specified.") in
        Py.ret l
    end in
  Py.ret (mat1_size, mat2_size, layout, mat1, mat2, offs).

(** ** The eligibility gate *)

(** [x >= 32] *)
Definition ge32 (x : Py.M Z) : Py.M bool :=
  let* v := x in Py.ret (bool_decide (v >= 32)).

Definition can_use_triton_kernel (env : Env) (mat_a mat_b : TensorBox)
    (offs bias : option TensorBox) : Py.M bool :=
  if negb (has_triton_tma_device env) then Py.ret false else
  if negb (is_none bias) then Py.ret false else
  let m1_size := get_size mat_a in
  let m2_size := get_size mat_b in
  if bool_decide (length m1_size = 2%nat) then
    if bool_decide (length m2_size = 2%nat) then
      Py.and (Py.ret (negb (is_none offs))) (ge32 (Py.index m2_size (-1)))
    else
      Py.and (Py.ret (negb (is_none offs)))
        (Py.and (ge32 (Py.index m1_size (-1))) (ge32 (Py.index m2_size (-2))))
  else
    if bool_decide (length m2_size = 2%nat) then
      Py.and (Py.ret (negb (is_none offs))) (ge32 (Py.index m2_size (-2)))
    else
      Py.and (Py.ret (is_none offs))
        (Py.and (ge32 (Py.index m1_size (-1))) (ge32 (Py.index m2_size (-1)))).

(** ** The lowering

    [tuned_scaled_grouped_mm] touches process-wide state: the counter
    [counters["aten_mm_info"]["aten._scaled_grouped_mm.default"]], the log
    and the allocator registered with Triton. *)

Record LogRecord : Type := mkLog {
  log_mat1_shape : list Z;
  log_mat2_shape : list Z;
  log_mat1_dtype : dtype;
  log_mat2_dtype : dtype;
  log_output_layout : Layout;
}.

Record GlobalState : Type := mkGlobal {
  counter : Z;
  log_info : list LogRecord;
  allocator_set : bool;
}.

(** A step of the lowering: it may raise, and it leaves a state behind in
    either case. *)
Definition Lower (A : Type) : Type := GlobalState → Py.M A * GlobalState.

Definition lret {A} (a : A) : Lower A := fun st => (Py.ret a, st).
Definition lbind {A B} (m : Lower A) (k : A → Lower B) : Lower B :=
  fun st =>
    match m st with
    | (inl e, st') => (inl e, st')
    | (inr a, st') => k a st'
    end.
Definition lift {A} (m : Py.M A) : Lower A := fun st => (m, st).
Definition modify (f : GlobalState → GlobalState) : Lower unit :=
  fun st => (Py.ret tt, f st).

Notation "'let+' x ':=' m 'in' k" := (lbind m (fun x => k))
  (at level 10, x pattern, m at level 100, k at level 200).

(** The candidates handed to the autotuner. *)
Inductive ChoiceCaller : Type :=
| AtenChoice (input_nodes : list TensorBox) (layout : Layout)
    (out_dtype : option dtype) (use_fast_accum : bool)
| TritonChoice (input_nodes : list TensorBox) (layout : Layout)
    (stages warps : Z) (kw : TemplateKwargs) (config_kwargs : gmap string Z).

(** The call [autotune_select_algorithm(name, choices, input_nodes, layout)]
    the lowering ends with. *)
Record AutotuneCall : Type := mkAutotune {
  at_name : string;
  at_choices : list ChoiceCaller;
  at_input_nodes : list TensorBox;
  at_layout : Layout;
}.

(** Modelled from the spec: [V.graph.sizevars.guard_equals] is not part of
    this module; a mismatch of two statically known sizes is a fatal
    precondition violation, otherwise the common size is returned. *)
Definition guard_equals (a b : Z) : Py.M Z :=
  let* _ := Py.assert (bool_decide (a = b)) None in Py.ret a.

(** The branch of [tuned_scaled_grouped_mm] on the ranks of the operands:
    [g], [m], [n], [k] and the three dynamic-dimension flags. *)
Definition problem_shape (offs : option TensorBox) (m1_size m2_size : list Z)
  : Py.M (Z * Z * Z * Z * bool * bool * bool) :=
  if bool_decide (length m1_size = 2%nat) then
    if bool_decide (length m2_size = 2%nat) then
      let* g := match offs with
                | Some o => Py.index (get_size o) 0
                | None => Py.raise Py.AttributeError
                end in
      let* (m, k1) := Py.unpack2 m1_size in
      let* (k2, n) := Py.unpack2 m2_size in
      let* k := guard_equals k1 k2 in
      Py.ret (g, m, n, k, false, false, true)
    else
      let* (m, k1) := Py.unpack2 m1_size in
      let* (g, k2, n) := Py.unpack3 m2_size in
      let* k := guard_equals k1 k2 in
      Py.ret (g, m, n, k, true, false, false)
  else
    if bool_decide (length m2_size = 2%nat) then
      let* (g, m, k1) := Py.unpack3 m1_size in
      let* (k2, n) := Py.unpack2 m2_size in
      let* k := guard_equals k1 k2 in
      Py.ret (g, m, n, k, false, true, false)
    else
      let* (g1, m, k1) := Py.unpack3 m1_size in
      let* (g2, k2, n) := Py.unpack3 m2_size in
      let* g := guard_equals g1 g2 in
      let* k := guard_equals k1 k2 in
      Py.ret (g, m, n, k, false, false, false).

(** The part of [tuned_scaled_grouped_mm] that fills the dictionary
    [kwargs] from the operands. *)
Definition template_kwargs (env : Env) (mat_a mat_b scale_a scale_b : TensorBox)
    (offs : option TensorBox) (m1_size m2_size : list Z)
    (use_fast_accum : bool) : Py.M TemplateKwargs :=
  let* (g, m, n, k, m_is_dynamic, n_is_dynamic, k_is_dynamic) :=
    problem_shape offs m1_size m2_size in
  let a_size := get_size mat_a in
  let b_size := get_size mat_b in
  let a_stride := get_stride mat_a in
  let b_stride := get_stride mat_b in
  let scale_a_stride := get_stride scale_a in
  let scale_b_stride := get_stride scale_b in
  let* a_size_m := Py.index a_size (-2) in
  let* a_size_k := Py.index a_size (-1) in
  let* a_stride_m := Py.index a_stride (-2) in
  let* a_stride_k := Py.index a_stride (-1) in
  let* (a_size_g, a_stride_g, scale_a_stride_g) :=
    if bool_decide (length a_size = 3%nat) then
      let* x := Py.index a_size 0 in
      let* y := Py.index a_stride 0 in
      let* z := Py.index scale_a_stride 0 in
      Py.ret (Some x, Some y, Some z)
    else Py.ret (None, None, None) in
  let* b_size_n := Py.index b_size (-1) in
  let* b_size_k := Py.index b_size (-2) in
  let* b_stride_n := Py.index b_stride (-1) in
  let* b_stride_k := Py.index b_stride (-2) in
  let* (b_size_g, b_stride_g, scale_b_stride_g) :=
    if bool_decide (length b_size = 3%nat) then
      let* x := Py.index b_size 0 in
      let* y := Py.index b_stride 0 in
      let* z := Py.index scale_b_stride 0 in
      Py.ret (Some x, Some y, Some z)
    else Py.ret (None, None, None) in
  Py.ret {|
    G := g; M := m; N := n; K := k;
    A_IS_2D := bool_decide (length m1_size = 2%nat);
    B_IS_2D := bool_decide (length m2_size = 2%nat);
    M_IS_DYNAMIC := m_is_dynamic;
    N_IS_DYNAMIC := n_is_dynamic;
    K_IS_DYNAMIC := k_is_dynamic;
    NUM_SMS := get_num_sms env;
    USE_TMA_LOAD := true;
    USE_FAST_ACCUM := use_fast_accum;
    A_SIZE_M := a_size_m; A_SIZE_K := a_size_k;
    A_STRIDE_M := a_stride_m; A_STRIDE_K := a_stride_k;
    A_SIZE_G := a_size_g; A_STRIDE_G := a_stride_g;
    SCALE_A_STRIDE_G := scale_a_stride_g;
    B_SIZE_N := b_size_n; B_SIZE_K := b_size_k;
    B_STRIDE_N := b_stride_n; B_STRIDE_K := b_stride_k;
    B_SIZE_G := b_size_g; B_STRIDE_G := b_stride_g;
    SCALE_B_STRIDE_G := scale_b_stride_g;
  |}.

Definition option_list {A} (o : option A) : list A :=
  match o with Some a => [a] | None => [] end.

Definition tuned_scaled_grouped_mm (env : Env)
    (mat_a mat_b scale_a scale_b : TensorBox)
    (offs bias scale_result : option TensorBox)
    (out_dtype : option dtype) (use_fast_accum : bool)
    (layout : option Layout) : Lower AutotuneCall :=
  let+ (m1_size, m2_size, layout, mat_a, mat_b, offs) :=
    lift (grouped_mm_args mat_a mat_b offs layout out_dtype) in
  let+ _ := modify (fun st =>
    mkGlobal (counter st + 1) (log_info st) (allocator_set st)) in
  let+ _ := modify (fun st =>
    mkGlobal (counter st)
      (log_info st ++ [mkLog m1_size m2_size (get_dtype mat_a)
                         (get_dtype mat_b) layout])
      (allocator_set st)) in
  let+ _ := lift (check_supported_striding env mat_a mat_b) in
  let input_nodes :=
    [mat_a; mat_b; scale_a; scale_b] ++ option_list offs ++ option_list bias in
  let aten_choice := AtenChoice input_nodes layout out_dtype use_fast_accum in
  let choices := if use_aten_gemm_kernels env then [aten_choice] else [] in
  let is_nonzero := snd (_is_static_problem env layout) in
  let+ choices :=
    lift (let* ok := Py.and (Py.ret is_nonzero)
                       (can_use_triton_kernel env mat_a mat_b offs bias) in
          if ok : bool then
            let* kw := template_kwargs env mat_a mat_b scale_a scale_b offs
                         m1_size m2_size use_fast_accum in
            let* pruned :=
              early_config_prune env (scaled_grouped_mm_configs env) kw in
            Py.ret (choices ++
                    map (fun config =>
                           TritonChoice input_nodes layout (num_stages config)
                             (num_warps config) kw (kwargs config)) pruned)
          else Py.ret choices) in
  let+ _ := if has_triton_tma_device env
            then modify (fun st => mkGlobal (counter st) (log_info st) true)
            else lret tt in
  lret (mkAutotune "scaled_grouped_mm" choices input_nodes layout).

(** ** The persistent kernel

    [triton_scaled_grouped_mm_source], rendered with the dictionary [kwargs]
    of the lowering and the [kwargs] of one config. *)

Record Meta : Type := mkMeta {
  meta_kw : TemplateKwargs;
  BLOCK_M : Z;
  BLOCK_N : Z;
  BLOCK_K : Z;
}.

(** [tl.cdiv] *)
Definition cdiv (x d : Z) : Z := (x + d - 1) `div` d.

(** [x.to(tl.int64)] and [x.to(tl.int32)]: two's complement wrap-around. *)
Definition to_int64 (x : Z) : Z := (x + 2 ^ 63) `mod` 2 ^ 64 - 2 ^ 63.
Definition to_int32 (x : Z) : Z := (x + 2 ^ 31) `mod` 2 ^ 32 - 2 ^ 31.

(** [tl.load(offsets_ptr + g)] *)
Definition load_offsets (offsets : list Z) (g : nat) : Z :=
  default 0 (offsets !! g).

(** The variables in scope when the body of the tile loop runs. *)
Record TileEnv : Type := mkTile {
  tile_g : nat;
  tile_m_idx : Z;
  tile_n_idx : Z;
  m_start_offset : Z;
  m_size : Z;
  m_scale_start_offset : option Z;
  n_start_offset : Z;
  n_size : Z;
  n_scale_start_offset : option Z;
  k_start_offset : Z;
  k_size : Z;
}.

#[global] Instance TileEnv_eq_dec : EqDecision TileEnv.
Proof. solve_decision. Defined.

(** The variables carried across groups by one program. *)
Record LoopState : Type := mkLoop {
  tidx : Z;
  iterated_tiles : Z;
  m_end_offset : Z;
  n_end_offset : Z;
  k_end_offset : Z;
}.

(** [while tidx >= iterated_tiles and tidx < iterated_tiles + num_tiles]:
    [body gidx] is the tile processed at [gidx = tidx - iterated_tiles];
    the result is [None] when the fuel runs out before the loop ends. *)
Fixpoint tile_loop (fuel : nat) (num_sms : Z) (body : Z → TileEnv)
    (iterated num_tiles : Z) (tidx0 : Z) : option (list TileEnv * Z) :=
  if bool_decide (tidx0 >= iterated) && bool_decide (tidx0 < iterated + num_tiles)
  then
    match fuel with
    | O => None
    | S fuel' =>
        let gidx := tidx0 - iterated in
        match tile_loop fuel' num_sms body iterated num_tiles (tidx0 + num_sms) with
        | Some (tiles, tidx') => Some (body gidx :: tiles, tidx')
        | None => None
        end
    end
  else Some ([], tidx0).

(** The body of [for g in tl.range(G)]. *)
Definition group_step (p : Meta) (offsets : list Z) (fuel : nat)
    (st : LoopState) (g : nat) : option (list TileEnv * LoopState) :=
  let kw := meta_kw p in
  let '(m_start, m_end, m_sz, m_scale_start) :=
    if M_IS_DYNAMIC kw then
      let m_start := m_end_offset st in
      let m_end := load_offsets offsets g in
      (m_start, m_end, m_end - m_start, Some m_start)
    else
      (0, m_end_offset st, M kw,
       if A_IS_2D kw then Some (to_int64 (Z.of_nat g) * M kw) else None) in
  if bool_decide (m_sz > 0) then
    let '(n_start, n_end, n_sz, n_scale_start) :=
      if N_IS_DYNAMIC kw then
        let n_start := n_end_offset st in
        let n_end := load_offsets offsets g in
        (n_start, n_end, n_end - n_start, Some n_start)
      else
        (0, n_end_offset st, N kw,
         if B_IS_2D kw then Some (to_int64 (Z.of_nat g) * N kw) else None) in
    let '(k_start, k_end, k_sz) :=
      if K_IS_DYNAMIC kw then
        let k_start := k_end_offset st in
        let k_end := load_offsets offsets g in
        (k_start, k_end, k_end - k_start)
      else (0, k_end_offset st, K kw) in
    let num_m_tiles := cdiv m_sz (BLOCK_M p) in
    let num_n_tiles := cdiv n_sz (BLOCK_N p) in
    let num_tiles := num_m_tiles * num_n_tiles in
    let body gidx :=
      {| tile_g := g;
         tile_m_idx := gidx `mod` num_m_tiles;
         tile_n_idx := gidx `div` num_m_tiles;
         m_start_offset := m_start; m_size := m_sz;
         m_scale_start_offset := m_scale_start;
         n_start_offset := n_start; n_size := n_sz;
         n_scale_start_offset := n_scale_start;
         k_start_offset := k_start; k_size := k_sz |} in
    match tile_loop fuel (NUM_SMS kw) body (iterated_tiles st) num_tiles (tidx st) with
    | Some (tiles, tidx') =>
        Some (tiles,
              {| tidx := tidx';
                 iterated_tiles := iterated_tiles st + num_tiles;
                 m_end_offset := m_end;
                 n_end_offset := n_end;
                 k_end_offset := k_end |})
    | None => None
    end
  else
    Some ([], {| tidx := tidx st;
                 iterated_tiles := iterated_tiles st;
                 m_end_offset := m_end;
                 n_end_offset := n_end_offset st;
                 k_end_offset := k_end_offset st |}).

Fixpoint run_groups (p : Meta) (offsets : list Z) (fuel : nat)
    (st : LoopState) (gs : list nat) : option (list TileEnv * LoopState) :=
  match gs with
  | [] => Some ([], st)
  | g :: rest =>
      match group_step p offsets fuel st g with
      | Some (tiles, st') =>
          match run_groups p offsets fuel st' rest with
          | Some (tiles', st'') => Some (tiles ++ tiles', st'')
          | None => None
          end
      | None => None
      end
  end.

(** One program of the kernel, [program_id] being [tl.program_id(0)]: the
    tiles it processes, in order. *)
Definition kernel (p : Meta) (offsets : list Z) (fuel : nat)
    (program_id : Z) : option (list TileEnv) :=
  fst <$> run_groups p offsets fuel
            {| tidx := program_id; iterated_tiles := 0;
               m_end_offset := 0; n_end_offset := 0; k_end_offset := 0 |}
            (seq 0 (Z.to_nat (G (meta_kw p)))).

(** Modelled from the spec: the grid function [persistent_grouped_mm_grid]
    is not part of this module; the kernel runs on a fixed number of
    execution contexts, [NUM_SMS] of them, each starting at its own
    context id. *)
Definition persistent_grouped_mm_grid (p : Meta) : list Z :=
  seqZ 0 (NUM_SMS (meta_kw p)).

(** A launch: the tiles of every program, or [None] when one of them runs
    out of fuel. *)
Definition launch (p : Meta) (offsets : list Z) (fuel : nat)
  : option (list (list TileEnv)) :=
  mapM (kernel p offsets fuel) (persistent_grouped_mm_grid p).

(** The tiles of one program, empty when its fuel does not suffice. *)
Definition program_tiles (p : Meta) (offsets : list Z) (fuel : nat)
    (program_id : Z) : list TileEnv :=
  default [] (kernel p offsets fuel program_id).

(** The work item of a tile: [(g, tile_m_idx, tile_n_idx)]. *)
Definition work_item (e : TileEnv) : nat * Z * Z :=
  (tile_g e, tile_m_idx e, tile_n_idx e).

(** ** The scale-and-store stage

    What the body of the tile loop does after the loop over [k]: the two
    scale loads, the product and the masked store. The accumulator left by
    the loop over [k] and the contents of the scale buffers are parameters;
    addresses are element offsets from [scale_a_ptr] and [scale_b_ptr]. *)

Section Stage.

Context {F : Type}.
Variable fmul : F → F → F.                (* fp32 multiplication *)
Variable scale_a_mem scale_b_mem : Z → F. (* the two scale buffers *)
Variable accumulator : TileEnv → Z → Z → F.

Variable p : Meta.
Variable e : TileEnv.

(** [offs_am] and [offs_bn] at lane [i] of [tl.arange]. *)
Definition offs_am (i : Z) : Z := tile_m_idx e * BLOCK_M p + i.
Definition offs_bn (j : Z) : Z := tile_n_idx e * BLOCK_N p + j.

(** The row and column the descriptor loads start at
    ([USE_TMA_LOAD]). *)
Definition m_offset : Z :=
  to_int32 (m_start_offset e + tile_m_idx e * BLOCK_M p).
Definition n_offset : Z :=
  to_int32 (n_start_offset e + tile_n_idx e * BLOCK_N p).

(** The offset the scale of row [i] is loaded from. *)
Definition scale_a_offset (i : Z) : option Z :=
  base ← (if A_IS_2D (meta_kw p) then m_scale_start_offset e
          else s ← SCALE_A_STRIDE_G (meta_kw p); Some (Z.of_nat (tile_g e) * s));
  Some (base + offs_am i).

Definition scale_b_offset (j : Z) : option Z :=
  base ← (if B_IS_2D (meta_kw p) then n_scale_start_offset e
          else s ← SCALE_B_STRIDE_G (meta_kw p); Some (Z.of_nat (tile_g e) * s));
  Some (base + offs_bn j).

Definition row_mask (i : Z) : bool := bool_decide (offs_am i < m_size e).
Definition col_mask (j : Z) : bool := bool_decide (offs_bn j < n_size e).

(** A masked load yields no value on the lanes that are masked off. *)
Definition scale_a (i : Z) : option F :=
  if row_mask i then scale_a_mem <$> scale_a_offset i else None.
Definition scale_b (j : Z) : option F :=
  if col_mask j then scale_b_mem <$> scale_b_offset j else None.

(** [c = accumulator.to(tl.float32) * scale_a * scale_b] *)
Definition c (i j : Z) : option F :=
  a ← scale_a i; b ← scale_b j; Some (fmul (fmul (accumulator e i j) a) b).

Definition idx_m (i : Z) : Z :=
  if M_IS_DYNAMIC (meta_kw p) then m_start_offset e + offs_am i else offs_am i.
Definition idx_n (j : Z) : Z :=
  if N_IS_DYNAMIC (meta_kw p) then n_start_offset e + offs_bn j else offs_bn j.

Definition mask (i j : Z) : bool := row_mask i && col_mask j.

(** The indices [store_output] is called with. *)
Definition store_indices (i j : Z) : list Z :=
  if M_IS_DYNAMIC (meta_kw p) || N_IS_DYNAMIC (meta_kw p)
  then [idx_m i; idx_n j]
  else [Z.of_nat (tile_g e); idx_m i; idx_n j].

(** The write of lane [(i, j)]: where and what, or nothing when the lane
    is masked off. *)
Definition store_output (i j : Z) : option (list Z * F) :=
  if mask i j then v ← c i j; Some (store_indices i j, v) else None.

End Stage.

(** ** The reference enumeration of the specification *)

(** Where group [g] starts along a dynamic dimension: the previous entry of
    the offsets array, or zero for the first group. *)
Definition group_start (offsets : list Z) (g : nat) : Z :=
  match g with
  | O => 0
  | S g' => load_offsets offsets g'
  end.

Definition group_extent (offsets : list Z) (g : nat) : Z :=
  load_offsets offsets g - group_start offsets g.

Definition group_m_size (p : Meta) (offsets : list Z) (g : nat) : Z :=
  if M_IS_DYNAMIC (meta_kw p) then group_extent offsets g else M (meta_kw p).

Definition group_n_size (p : Meta) (offsets : list Z) (g : nat) : Z :=
  if N_IS_DYNAMIC (meta_kw p) then group_extent offsets g else N (meta_kw p).

Definition group_k_size (p : Meta) (offsets : list Z) (g : nat) : Z :=
  if K_IS_DYNAMIC (meta_kw p) then group_extent offsets g else K (meta_kw p).

Definition group_m_tiles (p : Meta) (offsets : list Z) (g : nat) : Z :=
  cdiv (group_m_size p offsets g) (BLOCK_M p).

Definition group_n_tiles (p : Meta) (offsets : list Z) (g : nat) : Z :=
  cdiv (group_n_size p offsets g) (BLOCK_N p).

(** The reference enumeration: over the groups of nonzero row and column
    extent, the Cartesian product of the M-tile range and the N-tile
    range. *)
Definition reference_tiles (p : Meta) (offsets : list Z) : list (nat * Z * Z) :=
  g ← seq 0 (Z.to_nat (G (meta_kw p)));
  if bool_decide (group_m_size p offsets g > 0)
     && bool_decide (group_n_size p offsets g > 0)
  then
    tile_n ← seqZ 0 (group_n_tiles p offsets g);
    tile_m ← seqZ 0 (group_m_tiles p offsets g);
    [(g, tile_m, tile_n)]
  else [].

(** An offsets array is monotone when it never decreases, starting from
    zero. *)
Fixpoint monotone_from (prev : Z) (offsets : list Z) : Prop :=
  match offsets with
  | [] => True
  | x :: rest => prev ≤ x ∧ monotone_from x rest
  end.

(** The launches the kernel is written for. *)
Record valid_launch (p : Meta) (offsets : list Z) : Prop := mkValid {
  vl_num_sms : 0 < NUM_SMS (meta_kw p);
  vl_block_m : 0 < BLOCK_M p;
  vl_block_n : 0 < BLOCK_N p;
  vl_static_n : N_IS_DYNAMIC (meta_kw p) = false → 0 ≤ N (meta_kw p);
  vl_offsets :
    M_IS_DYNAMIC (meta_kw p) || N_IS_DYNAMIC (meta_kw p)
      || K_IS_DYNAMIC (meta_kw p) = true →
    length offsets = Z.to_nat (G (meta_kw p)) ∧ monotone_from 0 offsets;
}.

(** The number of tiles of the groups before [g], and the tile the kernel
    processes at local index [gidx] of group [g], both in closed form. *)
Definition group_num_tiles (p : Meta) (offsets : list Z) (g : nat) : Z :=
  if bool_decide (group_m_size p offsets g > 0)
  then group_m_tiles p offsets g * group_n_tiles p offsets g
  else 0.

Fixpoint tiles_before (p : Meta) (offsets : list Z) (g : nat) : Z :=
  match g with
  | O => 0
  | S g' => tiles_before p offsets g' + group_num_tiles p offsets g'
  end.

Definition ref_tile (p : Meta) (offsets : list Z) (g : nat) (gidx : Z) : TileEnv :=
  let kw := meta_kw p in
  {| tile_g := g;
     tile_m_idx := gidx `mod` group_m_tiles p offsets g;
     tile_n_idx := gidx `div` group_m_tiles p offsets g;
     m_start_offset := if M_IS_DYNAMIC kw then group_start offsets g else 0;
     m_size := group_m_size p offsets g;
     m_scale_start_offset :=
       if M_IS_DYNAMIC kw then Some (group_start offsets g)
       else if A_IS_2D kw then Some (to_int64 (Z.of_nat g) * M kw) else None;
     n_start_offset := if N_IS_DYNAMIC kw then group_start offsets g else 0;
     n_size := group_n_size p offsets g;
     n_scale_start_offset :=
       if N_IS_DYNAMIC kw then Some (group_start offsets g)
       else if B_IS_2D kw then Some (to_int64 (Z.of_nat g) * N kw) else None;
     k_start_offset := if K_IS_DYNAMIC kw then group_start offsets g else 0;
     k_size := group_k_size p offsets g |}.

(** What holds of the state of the program of residue class [t] when it
    enters group [g]. The cursors of [N] and [K] advance only inside
    [if m_size > 0], so they are known only when a static [M] is
    positive. *)
Record loop_inv (p : Meta) (offsets : list Z) (t : Z) (g : nat)
    (st : LoopState) : Prop := mkInv {
  inv_iter : iterated_tiles st = tiles_before p offsets g;
  inv_lo : tiles_before p offsets g ≤ tidx st;
  inv_hi : tidx st < tiles_before p offsets g + NUM_SMS (meta_kw p);
  inv_mod : tidx st `mod` NUM_SMS (meta_kw p) = t;
  inv_m : M_IS_DYNAMIC (meta_kw p) = true →
          m_end_offset st = group_start offsets g;
  inv_n : N_IS_DYNAMIC (meta_kw p) = true →
          (M_IS_DYNAMIC (meta_kw p) = false → 0 < M (meta_kw p)) →
          n_end_offset st = group_start offsets g;
  inv_k : K_IS_DYNAMIC (meta_kw p) = true →
          (M_IS_DYNAMIC (meta_kw p) = false → 0 < M (meta_kw p)) →
          k_end_offset st = group_start offsets g;
}.

(** ** The scale addresses and store indices of the specification

    The base of a scale load: the group's offset in the flattened dimension
    when the operand is 2-D, the group index times the group stride of the
    scale when it is 3-D. *)

Definition spec_scale_a_base (p : Meta) (offsets : list Z) (g : nat) : option Z :=
  if A_IS_2D (meta_kw p)
  then Some (if M_IS_DYNAMIC (meta_kw p) then group_start offsets g
             else Z.of_nat g * M (meta_kw p))
  else s ← SCALE_A_STRIDE_G (meta_kw p); Some (Z.of_nat g * s).

Definition spec_scale_b_base (p : Meta) (offsets : list Z) (g : nat) : option Z :=
  if B_IS_2D (meta_kw p)
  then Some (if N_IS_DYNAMIC (meta_kw p) then group_start offsets g
             else Z.of_nat g * N (meta_kw p))
  else s ← SCALE_B_STRIDE_G (meta_kw p); Some (Z.of_nat g * s).

(** The indices of a store: with the group as a coordinate of its own when
    neither [M] nor [N] is dynamic, absolute row and column otherwise. *)
Definition spec_store_indices (p : Meta) (offsets : list Z) (g : nat)
    (row col : Z) : list Z :=
  if negb (M_IS_DYNAMIC (meta_kw p)) && negb (N_IS_DYNAMIC (meta_kw p))
  then [Z.of_nat g; row; col]
  else [(if M_IS_DYNAMIC (meta_kw p) then group_start offsets g else 0) + row;
        (if N_IS_DYNAMIC (meta_kw p) then group_start offsets g else 0) + col].

(** ** Example launches *)

(** Three groups of 130 rows whose columns end at 64, 64 and 200: the
    second group is empty and no extent is a multiple of the tile size. *)
Definition example_kwargs : TemplateKwargs :=
  {| G := 3; M := 130; N := 200; K := 64;
     A_IS_2D := false; B_IS_2D := true;
     M_IS_DYNAMIC := false; N_IS_DYNAMIC := true; K_IS_DYNAMIC := false;
     NUM_SMS := 4; USE_TMA_LOAD := true; USE_FAST_ACCUM := false;
     A_SIZE_M := 130; A_SIZE_K := 64; A_STRIDE_M := 64; A_STRIDE_K := 1;
     A_SIZE_G := Some 3; A_STRIDE_G := Some 8320; SCALE_A_STRIDE_G := Some 130;
     B_SIZE_N := 200; B_SIZE_K := 64; B_STRIDE_N := 64; B_STRIDE_K := 1;
     B_SIZE_G := None; B_STRIDE_G := None; SCALE_B_STRIDE_G := None |}.

Definition example_meta : Meta :=
  {| meta_kw := example_kwargs; BLOCK_M := 64; BLOCK_N := 64; BLOCK_K := 64 |}.

Definition example_offsets : list Z := [64; 64; 200].

(** ** The scenarios of the specification *)

Definition fp8_tensor (size stride : list Z) : TensorBox :=
  {| get_size := size; get_stride := stride;
     get_dtype := float8_e4m3fn; get_device := "cuda" |}.

Definition int32_tensor (size stride : list Z) : TensorBox :=
  {| get_size := size; get_stride := stride;
     get_dtype := int32; get_device := "cuda" |}.

Definition fp32_tensor (size stride : list Z) : TensorBox :=
  {| get_size := size; get_stride := stride;
     get_dtype := float32; get_device := "cuda" |}.

(** Scenario A: [G = 4], A of shape [4, 128, 64], B 2-D with [K = 64] and
    [N = 256], stored with its last two dimensions transposed, no
    offsets. *)
Definition scenario_A_mat_a : TensorBox := fp8_tensor [4; 128; 64] [8192; 64; 1].
Definition scenario_A_mat_b : TensorBox := fp8_tensor [64; 256] [1; 64].
(** The same B read with the shape as the scenario writes it. *)
Definition scenario_A_mat_b_as_written : TensorBox := fp8_tensor [256; 64] [64; 1].
(** A per-group B for the same problem. *)
Definition scenario_A_mat_b_3d : TensorBox :=
  fp8_tensor [4; 64; 256] [16384; 1; 64].

(** Scenario B: A of shape [1000, 64], B of shape [64, 256], offsets
    [250, 500, 800, 1000]. *)
Definition scenario_B_mat_a : TensorBox := fp8_tensor [1000; 64] [64; 1].
Definition scenario_B_mat_b : TensorBox := fp8_tensor [64; 256] [1; 64].
Definition scenario_B_offs : TensorBox := int32_tensor [4] [1].
Definition scenario_B_offsets : list Z := [250; 500; 800; 1000].
Definition scenario_B_scale_a : TensorBox := fp32_tensor [4000] [1].
Definition scenario_B_scale_b : TensorBox := fp32_tensor [1024] [1].
(** A per-group B, with which the offsets split the rows of A. *)
Definition scenario_B_mat_b_3d : TensorBox :=
  fp8_tensor [4; 64; 256] [16384; 1; 64].
Definition scenario_B_scale_a_rows : TensorBox := fp32_tensor [1000] [1].
Definition scenario_B_scale_b_3d : TensorBox := fp32_tensor [4; 256] [256; 1].

(** Doubling [acc] until it reaches [n]. *)
Fixpoint next_pow2_from (fuel : nat) (acc n : Z) : Z :=
  match fuel with
  | O => acc
  | S fuel' => if bool_decide (n ≤ acc) then acc
               else next_pow2_from fuel' (2 * acc) n
  end.

(** Modelled from the spec: [next_power_of_2] is imported from the runtime
    utilities; the spec calls it [next_power_of_two], the least power of
    two that is not below its argument. *)
Definition example_next_power_of_2 (n : Z) : Z := next_pow2_from 64 1 n.

(** A device of the generic family: 227 KiB of shared memory, 132 units,
    tensor descriptors. *)
Definition example_env : Env :=
  {| hip := false;
     get_gpu_shared_memory := 232448;
     get_num_sms := 132;
     has_triton_tma_device := true;
     use_aten_gemm_kernels := true;
     next_power_of_2 := example_next_power_of_2;
     check_supported_striding := fun _ _ => Py.ret tt;
     _is_static_problem := fun l =>
       (true, bool_decide (Forall (λ d, d ≠ 0) (layout_size l))) |}.

(** A device of the alternate vendor. *)
Definition example_amd_env : Env :=
  {| hip := true;
     get_gpu_shared_memory := 65536;
     get_num_sms := 304;
     has_triton_tma_device := true;
     use_aten_gemm_kernels := true;
     next_power_of_2 := example_next_power_of_2;
     check_supported_striding := fun _ _ => Py.ret tt;
     _is_static_problem := fun l =>
       (true, bool_decide (Forall (λ d, d ≠ 0) (layout_size l))) |}.

(** ** The eligibility table as the specification words it

    With [K] the last dimension of A and [N] the last dimension of B. *)
Definition spec_gate (env : Env) (mat_a mat_b : TensorBox)
    (offs bias : option TensorBox) : bool :=
  let K := default 0 (last (get_size mat_a)) in
  let N := default 0 (last (get_size mat_b)) in
  has_triton_tma_device env && is_none bias &&
  match length (get_size mat_a), length (get_size mat_b) with
  | 2%nat, 2%nat => negb (is_none offs) && bool_decide (N >= 32)
  | 2%nat, 3%nat => negb (is_none offs) && bool_decide (K >= 32) && bool_decide (N >= 32)
  | 3%nat, 2%nat => negb (is_none offs) && bool_decide (N >= 32)
  | 3%nat, 3%nat => is_none offs && bool_decide (K >= 32) && bool_decide (N >= 32)
  | _, _ => false
  end.

(** A problem with a tiny dynamic [M]: 30 rows over 4 groups. *)
Definition example_named_args : TemplateKwargs :=
  {| G := 4; M := 30; N := 1024; K := 64;
     A_IS_2D := true; B_IS_2D := false;
     M_IS_DYNAMIC := true; N_IS_DYNAMIC := false; K_IS_DYNAMIC := false;
     NUM_SMS := 132; USE_TMA_LOAD := true; USE_FAST_ACCUM := false;
     A_SIZE_M := 30; A_SIZE_K := 64; A_STRIDE_M := 64; A_STRIDE_K := 1;
     A_SIZE_G := None; A_STRIDE_G := None; SCALE_A_STRIDE_G := None;
     B_SIZE_N := 1024; B_SIZE_K := 64; B_STRIDE_N := 64; B_STRIDE_K := 1;
     B_SIZE_G := Some 4; B_STRIDE_G := Some 65536;
     SCALE_B_STRIDE_G := Some 1024 |}.

(** The first config of the generic family. *)
Definition example_config : Config :=
  mkConfig
    (<["BLOCK_M" := 64]>
     (<["BLOCK_N" := 64]>
      (<["BLOCK_K" := 64]>
       (<["NUM_CONSUMER_GROUPS" := 1]> ∅))))
    3 4.

(** What the pruner returns, or the empty list when it raises. *)
Definition pruned_or_nil (env : Env) (configs : list Config)
    (named_args : TemplateKwargs) : list Config :=
  match early_config_prune env configs named_args with
  | inr out => out
  | inl _ => []
  end.

(** Two more configs of the generic family, and two small static
    problems. *)
Definition example_config_m128 : Config :=
  mkConfig
    (<["BLOCK_M" := 128]>
     (<["BLOCK_N" := 64]>
      (<["BLOCK_K" := 64]>
       (<["NUM_CONSUMER_GROUPS" := 1]> ∅))))
    3 4.

Definition example_config_warps8 : Config :=
  mkConfig
    (<["BLOCK_M" := 64]>
     (<["BLOCK_N" := 128]>
      (<["BLOCK_K" := 64]>
       (<["NUM_CONSUMER_GROUPS" := 1]> ∅))))
    3 8.

Definition static_named_args (g m n k : Z) : TemplateKwargs :=
  {| G := g; M := m; N := n; K := k;
     A_IS_2D := false; B_IS_2D := false;
     M_IS_DYNAMIC := false; N_IS_DYNAMIC := false; K_IS_DYNAMIC := false;
     NUM_SMS := 132; USE_TMA_LOAD := true; USE_FAST_ACCUM := false;
     A_SIZE_M := m; A_SIZE_K := k; A_STRIDE_M := k; A_STRIDE_K := 1;
     A_SIZE_G := Some g; A_STRIDE_G := Some (m * k); SCALE_A_STRIDE_G := Some m;
     B_SIZE_N := n; B_SIZE_K := k; B_STRIDE_N := k; B_STRIDE_K := 1;
     B_SIZE_G := Some g; B_STRIDE_G := Some (n * k);
     SCALE_B_STRIDE_G := Some n |}.

(** The size of the layout [grouped_mm_args] returns. *)
Definition output_size
    (r : Py.M (list Z * list Z * Layout * TensorBox * TensorBox * option TensorBox))
  : Py.M (list Z) :=
  let* (_, _, layout, _, _, _) := r in Py.ret (layout_size layout).

(** The three dynamic-dimension flags of a rank pattern, as the
    specification tabulates them: M, N, K. *)
Definition spec_dynamic_flags (rank_a rank_b : nat) : bool * bool * bool :=
  match rank_a, rank_b with
  | 2%nat, 2%nat => (false, false, true)
  | 2%nat, 3%nat => (true, false, false)
  | 3%nat, 2%nat => (false, true, false)
  | _, _ => (false, false, false)
  end.

(** The ranks [grouped_mm_args] asserts. *)
Definition ranks_supported (mat1 mat2 : TensorBox) : Prop :=
  (length (get_size mat1) = 2%nat ∨ length (get_size mat1) = 3%nat)
  ∧ (length (get_size mat2) = 2%nat ∨ length (get_size mat2) = 3%nat).

Definition out_dtype_message : string :=
  "out_dtype is ignored if layout is specified.".

Definition initial_state : GlobalState :=
  {| counter := 0; log_info := []; allocator_set := false |}.

(** ** Further definitions for the properties of the code *)

(** An environment with another amount of shared memory. *)
Definition with_shared_memory (env : Env) (limit : Z) : Env :=
  {| hip := hip env;
     get_gpu_shared_memory := limit;
     get_num_sms := get_num_sms env;
     has_triton_tma_device := has_triton_tma_device env;
     use_aten_gemm_kernels := use_aten_gemm_kernels env;
     next_power_of_2 := next_power_of_2 env;
     check_supported_striding := check_supported_striding env;
     _is_static_problem := _is_static_problem env |}.

(** The division the pruner performs for a dynamic dimension has a zero
    divisor. *)
Definition divides_by_zero_groups (named_args : TemplateKwargs) : bool :=
  (M_IS_DYNAMIC named_args || N_IS_DYNAMIC named_args)
  && bool_decide (G named_args = 0).

(** A config without one of the three tile sizes. *)
Definition example_config_no_block_n : Config :=
  mkConfig (<["BLOCK_M" := 64]> (<["BLOCK_K" := 64]> ∅)) 3 4.

(** A tensor of rank at least one, as an offsets tensor must be. *)
Definition has_dim0 (t : TensorBox) : Prop := get_size t ≠ [].

(** When [grouped_mm_args] returns: supported ranks, no output dtype beside
    a layout, and, without a layout, offsets of rank at least one for two
    2-D operands. *)
Definition args_accepted (mat1 mat2 : TensorBox) (offs : option TensorBox)
    (layout : option Layout) (out_dtype : option dtype) : Prop :=
  ranks_supported mat1 mat2
  ∧ match layout with
    | Some _ => out_dtype = None
    | None =>
        length (get_size mat1) = 2%nat → length (get_size mat2) = 2%nat →
        ∃ o, offs = Some o ∧ has_dim0 o
    end.

(** The operand sizes for which the branch on the ranks goes through: the
    contraction dimensions agree, the group dimensions of two 3-D operands
    agree, and two 2-D operands come with offsets of rank at least one. *)
Definition shapes_agree (offs : option TensorBox) (m1_size m2_size : list Z)
  : Prop :=
  match m1_size, m2_size with
  | [_; k1], [k2; _] => k1 = k2 ∧ ∃ o, offs = Some o ∧ has_dim0 o
  | [_; k1], [_; k2; _] => k1 = k2
  | [_; _; k1], [k2; _] => k1 = k2
  | [g1; _; k1], [g2; k2; _] => g1 = g2 ∧ k1 = k2
  | _, _ => False
  end.

(** What a call of the lowering leaves in the process-wide state once it
    is past [grouped_mm_args]: one more call counted and one more line
    logged. *)
Definition after_telemetry (st : GlobalState) (m1_size m2_size : list Z)
    (mat_a mat_b : TensorBox) (layout : Layout) : GlobalState :=
  {| counter := counter st + 1;
     log_info := log_info st ++ [mkLog m1_size m2_size (get_dtype mat_a)
                                   (get_dtype mat_b) layout];
     allocator_set := allocator_set st |}.

(** The state after a call that returns: the allocator is registered when
    the device has tensor descriptors. *)
Definition after_allocator (env : Env) (st : GlobalState) : GlobalState :=
  {| counter := counter st;
     log_info := log_info st;
     allocator_set := has_triton_tma_device env || allocator_set st |}.

(** The input nodes of a call: the four tensors, then the offsets and the
    bias when given. *)
Definition input_nodes_of (mat_a mat_b scale_a scale_b : TensorBox)
    (offs bias : option TensorBox) : list TensorBox :=
  [mat_a; mat_b; scale_a; scale_b] ++ option_list offs ++ option_list bias.

(** The reference choice, when the library kernels are enabled. *)
Definition reference_choices (env : Env) (input_nodes : list TensorBox)
    (layout : Layout) (out_dtype : option dtype) (use_fast_accum : bool)
  : list ChoiceCaller :=
  if use_aten_gemm_kernels env
  then [AtenChoice input_nodes layout out_dtype use_fast_accum] else [].

(** The generated choices: one per config the pruner keeps, when the
    problem is nonzero and passes the gate. *)
Definition generated_choices (env : Env)
    (mat_a mat_b scale_a scale_b : TensorBox) (offs bias : option TensorBox)
    (use_fast_accum : bool) (layout : Layout) : Py.M (list ChoiceCaller) :=
  let input_nodes := input_nodes_of mat_a mat_b scale_a scale_b offs bias in
  let* ok := Py.and (Py.ret (snd (_is_static_problem env layout)))
               (can_use_triton_kernel env mat_a mat_b offs bias) in
  if ok : bool then
    let* kw := template_kwargs env mat_a mat_b scale_a scale_b offs
                 (get_size mat_a) (get_size mat_b) use_fast_accum in
    let* pruned := early_config_prune env (scaled_grouped_mm_configs env) kw in
    Py.ret (map (fun config =>
                   TritonChoice input_nodes layout (num_stages config)
                     (num_warps config) kw (kwargs config)) pruned)
  else Py.ret [].

(** A problem the gate turns away whatever the sizes are. *)
Definition gate_refuses (env : Env) (mat_a mat_b : TensorBox)
    (offs bias : option TensorBox) : Prop :=
  has_triton_tma_device env = false
  ∨ bias ≠ None
  ∨ (offs = None
     ∧ (length (get_size mat_a) = 2%nat ∨ length (get_size mat_b) = 2%nat))
  ∨ (offs ≠ None
     ∧ length (get_size mat_a) ≠ 2%nat ∧ length (get_size mat_b) ≠ 2%nat).

(** A returning call of the lowering on the 3-D operands of scenario A, and
    a raising one, the contraction dimensions of the operands differing. *)
Definition example_lowering : Py.M AutotuneCall * GlobalState :=
  tuned_scaled_grouped_mm example_env scenario_A_mat_a scenario_A_mat_b_3d
    (fp32_tensor [4; 128] [128; 1]) (fp32_tensor [4; 256] [256; 1])
    None None None None false None initial_state.

Definition call_or_empty (r : Py.M AutotuneCall * GlobalState) : AutotuneCall :=
  match r.1 with
  | inr call => call
  | inl _ => mkAutotune "" [] [] (FixedLayout "" int32 [])
  end.

Definition scenario_A_mat_b_k32 : TensorBox :=
  fp8_tensor [4; 32; 256] [8192; 1; 32].

(** ** Statements about every tile of a launch *)

(** [every_tile p offsets P]: with enough fuel every program of the launch
    ends, and [P] holds of each tile it has processed. *)
Definition every_tile (p : Meta) (offsets : list Z) (P : TileEnv → Prop)
  : Prop :=
  ∃ fuel0 : nat, ∀ fuel : nat, (fuel0 ≤ fuel)%nat →
    ∀ t, t ∈ persistent_grouped_mm_grid p →
      ∃ tiles, kernel p offsets fuel t = Some tiles ∧ ∀ e, e ∈ tiles → P e.

(** The size of the output as the kernel addresses it: with the group as
    an axis of its own unless M or N is dynamic. *)
Definition output_dims (p : Meta) : list Z :=
  if M_IS_DYNAMIC (meta_kw p) || N_IS_DYNAMIC (meta_kw p)
  then [M (meta_kw p); N (meta_kw p)]
  else [G (meta_kw p); M (meta_kw p); N (meta_kw p)].

(** The offsets end within the dimension they split. *)
Definition offsets_within (p : Meta) (offsets : list Z) : Prop :=
  (M_IS_DYNAMIC (meta_kw p) = true → Forall (λ o, o ≤ M (meta_kw p)) offsets)
  ∧ (N_IS_DYNAMIC (meta_kw p) = true → Forall (λ o, o ≤ N (meta_kw p)) offsets).

(** The number of tiles of a launch. *)
Definition total_tiles (p : Meta) (offsets : list Z) : Z :=
  tiles_before p offsets (Z.to_nat (G (meta_kw p))).

(** The share of program [t] among [total] tiles dealt round robin to
    [num_sms] programs. *)
Definition program_share (num_sms total t : Z) : Z :=
  (total - t + num_sms - 1) `div` num_sms.

(** Two dictionaries of keyword arguments the pruner cannot tell apart:
    they agree on [G], [M], [N] and the dynamic flags of M and N. *)
Definition same_for_pruner (a b : TemplateKwargs) : Prop :=
  G a = G b ∧ M a = M b ∧ N a = N b
  ∧ M_IS_DYNAMIC a = M_IS_DYNAMIC b ∧ N_IS_DYNAMIC a = N_IS_DYNAMIC b.

(** * Properties *)

(** ** The model on concrete inputs *)

Example nv_configs_count : length _NV_CONFIGS = 72%nat.
Proof. vm_compute. reflexivity. Qed.

Example amd_configs_count : length _AMD_CONFIGS = 144%nat.
Proof. vm_compute. reflexivity. Qed.

Example cdiv_partial : cdiv 130 64 = 3 ∧ cdiv 128 64 = 2 ∧ cdiv 0 64 = 0.
Proof. vm_compute. repeat split. Qed.

Example to_int64_wraps : to_int64 (2 ^ 63) = - 2 ^ 63 ∧ to_int64 5 = 5.
Proof. vm_compute. repeat split. Qed.

(** Three groups, the second empty: four programs share twelve tiles. *)
Example example_launch :
  fmap (M := option) (map (map work_item))
    (launch example_meta example_offsets 12)
  = Some [ [(0%nat, 0, 0); (2%nat, 1, 0); (2%nat, 2, 1)];
           [(0%nat, 1, 0); (2%nat, 2, 0); (2%nat, 0, 2)];
           [(0%nat, 2, 0); (2%nat, 0, 1); (2%nat, 1, 2)];
           [(2%nat, 0, 0); (2%nat, 1, 1); (2%nat, 2, 2)] ].
Proof. vm_compute. reflexivity. Qed.

(** Without fuel the first tile cannot be processed. *)
Example example_launch_no_fuel : launch example_meta example_offsets 0 = None.
Proof. vm_compute. reflexivity. Qed.

(** With 8 rows per group only the 64 x 128 tiles survive, with 4 and with
    8 warps. *)
Example example_pruned :
  (λ c, (kwargs c !! "BLOCK_M", kwargs c !! "BLOCK_N", num_warps c))
    <$> pruned_or_nil example_env _NV_CONFIGS example_named_args
  = concat (replicate 6 [(Some 64, Some 128, 4); (Some 64, Some 128, 8)]).
Proof. vm_compute. reflexivity. Qed.

(** The threshold of the gate: 31 is refused, 32 accepted. *)
Example gate_threshold :
  can_use_triton_kernel example_env (fp8_tensor [4; 128; 32] [4096; 32; 1])
    (fp8_tensor [4; 32; 32] [1024; 1; 32]) None None = Py.ret true
  ∧ can_use_triton_kernel example_env (fp8_tensor [4; 128; 31] [3968; 31; 1])
      (fp8_tensor [4; 31; 32] [992; 1; 31]) None None = Py.ret false
  ∧ can_use_triton_kernel example_env (fp8_tensor [4; 128; 32] [4096; 32; 1])
      (fp8_tensor [4; 32; 31] [992; 1; 32]) None None = Py.ret false.
Proof. vm_compute. repeat split. Qed.

(** A zero group count with a dynamic M makes the pruner raise. *)
Example prune_zero_groups :
  early_config_prune example_env _NV_CONFIGS
    {| G := 0; M := 30; N := 1024; K := 64;
       A_IS_2D := true; B_IS_2D := false;
       M_IS_DYNAMIC := true; N_IS_DYNAMIC := false; K_IS_DYNAMIC := false;
       NUM_SMS := 132; USE_TMA_LOAD := true; USE_FAST_ACCUM := false;
       A_SIZE_M := 30; A_SIZE_K := 64; A_STRIDE_M := 64; A_STRIDE_K := 1;
       A_SIZE_G := None; A_STRIDE_G := None; SCALE_A_STRIDE_G := None;
       B_SIZE_N := 1024; B_SIZE_K := 64; B_STRIDE_N := 64; B_STRIDE_K := 1;
       B_SIZE_G := Some 0; B_STRIDE_G := Some 65536;
       SCALE_B_STRIDE_G := Some 1024 |}
  = Py.raise Py.ZeroDivisionError.
Proof. vm_compute. reflexivity. Qed.

(** ** Arithmetic of tile counts and strided indices *)

Lemma cdiv_nonneg x d : 0 < d → 0 ≤ x → 0 ≤ cdiv x d.
Proof. intros Hd Hx. unfold cdiv. apply Z.div_pos; lia. Qed.

Lemma cdiv_pos x d : 0 < d → 0 < x → 0 < cdiv x d.
Proof.
  intros Hd Hx. unfold cdiv.
  apply Z.div_str_pos. lia.
Qed.

Lemma cdiv_pos_inv x d : 0 < d → 0 < cdiv x d → 0 < x.
Proof.
  intros Hd Hc. unfold cdiv in Hc.
  destruct (decide (0 < x)) as [|Hn]; [done|].
  assert ((x + d - 1) `div` d ≤ 0); [|lia].
  destruct (decide (0 ≤ x + d - 1)).
  - rewrite Z.div_small by lia. lia.
  - assert ((x + d - 1) `div` d < 0); [|lia].
    apply Z.div_lt_upper_bound; lia.
Qed.

(** Two integers in the same residue class are equal or at least one
    stride apart. *)
Lemma mod_gap s u v : 0 < s → u `mod` s = v `mod` s → v < u → v + s ≤ u.
Proof.
  intros Hs Hm Hlt.
  pose proof (Z_div_mod_eq_full u s) as Hu.
  pose proof (Z_div_mod_eq_full v s) as Hv.
  assert (v `div` s < u `div` s); [|nia].
  destruct (decide (v `div` s < u `div` s)); [done|]. nia.
Qed.

Lemma mod_add_stride s u : 0 < s → (u + s) `mod` s = u `mod` s.
Proof.
  intros Hs. replace (u + s) with (u + 1 * s) by lia.
  apply Z_mod_plus_full.
Qed.

(** A local index is determined by its two tile coordinates. *)
Lemma decode_inj n x y :
  x `mod` n = y `mod` n → x `div` n = y `div` n → x = y.
Proof.
  intros Hm Hd.
  rewrite (Z_div_mod_eq_full x n), (Z_div_mod_eq_full y n). congruence.
Qed.

Lemma decode_encode n tm tn :
  0 ≤ tm < n → (tn * n + tm) `mod` n = tm ∧ (tn * n + tm) `div` n = tn.
Proof.
  intros Htm. split.
  - rewrite Z.add_comm, Z_mod_plus_full. apply Z.mod_small. lia.
  - rewrite Z.add_comm, Z_div_plus_full by lia.
    rewrite Z.div_small by lia. lia.
Qed.

Lemma decode_range n k x :
  0 < n → 0 ≤ x < n * k → 0 ≤ x `mod` n < n ∧ 0 ≤ x `div` n < k.
Proof.
  intros Hn Hx. split.
  - apply Z.mod_pos_bound. lia.
  - split.
    + apply Z.div_pos; lia.
    + apply Z.div_lt_upper_bound; lia.
Qed.

(** ** The tile loop *)

Section TileLoop.

Variable s : Z.               (* NUM_SMS *)
Variable body : Z → TileEnv.
Variable a c : Z.             (* iterated_tiles and num_tiles *)
Variable t : Z.               (* the residue class of the program *)
Hypothesis Hs : 0 < s.

(** From any index of the residue class at or above [iterated_tiles],
    with fuel for the tiles that remain, the loop ends; it has processed
    exactly the local indices of the class, each once, and leaves the
    index in the same class, past the group. *)
Lemma tile_loop_spec fuel x0 :
  a ≤ x0 → x0 `mod` s = t → (Z.to_nat (a + c - x0) ≤ fuel)%nat →
  ∃ xs x1,
    tile_loop fuel s body a c x0 = Some (body <$> xs, x1)
    ∧ x0 ≤ x1 ∧ a + c ≤ x1 ∧ (x1 < a + c + s ∨ x1 = x0)
    ∧ x1 `mod` s = t
    ∧ NoDup xs
    ∧ ∀ x, x ∈ xs ↔ x0 - a ≤ x < c ∧ (a + x) `mod` s = t.
Proof.
  revert x0. induction fuel as [|fuel IH]; intros x0 Ha Hm Hf.
  - exists [], x0. simpl.
    rewrite bool_decide_true by lia.
    rewrite (bool_decide_false (x0 < a + c)) by lia. simpl.
    split_and!; [done | lia | lia | by right | done | apply NoDup_nil_2 |].
    intros x. rewrite elem_of_nil. split; [done|]. lia.
  - simpl. rewrite bool_decide_true by lia.
    destruct (decide (x0 < a + c)) as [Hlt|Hge].
    + rewrite bool_decide_true by done. simpl.
      destruct (IH (x0 + s)) as (xs & x1 & Hrun & H01 & Hac & Hx1 & Hm1 & Hnd & Hin).
      { lia. } { by rewrite mod_add_stride. } { lia. }
      rewrite Hrun. exists ((x0 - a) :: xs), x1.
      split_and!; [done | lia | lia | left; lia | done | |].
      * constructor; [|done]. rewrite Hin. lia.
      * intros x. rewrite elem_of_cons, Hin. split.
        -- intros [->|[? ?]]; [|split; [lia|done]].
           split; [lia|]. by replace (a + (x0 - a)) with x0 by lia.
        -- intros [Hx Hxm].
           destruct (decide (x = x0 - a)) as [|Hne]; [by left|right].
           split; [|done].
           assert (x0 + s ≤ a + x); [|lia].
           apply mod_gap; [done|congruence|lia].
    + rewrite bool_decide_false by done. simpl.
      exists [], x0.
      split_and!; [done | lia | lia | by right | done | apply NoDup_nil_2 |].
      intros x. rewrite elem_of_nil. split; [done|]. lia.
Qed.

End TileLoop.

(** ** Monotone offsets *)

Lemma monotone_from_extent prev offsets g :
  monotone_from prev offsets → (g < length offsets)%nat →
  match g with O => prev | S g' => load_offsets offsets g' end
  ≤ load_offsets offsets g.
Proof.
  revert prev g. induction offsets as [|x rest IH]; intros prev g Hmono Hg.
  - simpl in Hg. lia.
  - destruct Hmono as [Hx Hrest]. destruct g as [|g]; [done|].
    simpl in Hg. specialize (IH x g Hrest ltac:(lia)).
    destruct g; exact IH.
Qed.

Section Groups.

Variable p : Meta.
Variable offsets : list Z.
Hypothesis Hvalid : valid_launch p offsets.

Lemma group_extent_nonneg g :
  M_IS_DYNAMIC (meta_kw p) || N_IS_DYNAMIC (meta_kw p)
    || K_IS_DYNAMIC (meta_kw p) = true →
  (g < Z.to_nat (G (meta_kw p)))%nat → 0 ≤ group_extent offsets g.
Proof.
  intros Hdyn Hg. destruct (vl_offsets _ _ Hvalid Hdyn) as [Hlen Hmono].
  unfold group_extent, group_start.
  pose proof (monotone_from_extent 0 offsets g Hmono ltac:(lia)). lia.
Qed.

Lemma group_n_size_nonneg g :
  (g < Z.to_nat (G (meta_kw p)))%nat → 0 ≤ group_n_size p offsets g.
Proof.
  intros Hg. unfold group_n_size.
  destruct (N_IS_DYNAMIC (meta_kw p)) eqn:HN.
  - apply group_extent_nonneg; [|done]. rewrite HN. by rewrite orb_true_r.
  - by apply (vl_static_n _ _ Hvalid).
Qed.

Lemma group_num_tiles_nonneg g :
  (g < Z.to_nat (G (meta_kw p)))%nat → 0 ≤ group_num_tiles p offsets g.
Proof.
  intros Hg. unfold group_num_tiles. case_bool_decide; [|done].
  apply Z.mul_nonneg_nonneg.
  - apply cdiv_nonneg; [apply Hvalid | lia].
  - apply cdiv_nonneg; [apply Hvalid | by apply group_n_size_nonneg].
Qed.

Lemma group_m_tiles_pos g :
  0 < group_m_size p offsets g → 0 < group_m_tiles p offsets g.
Proof. intros. apply cdiv_pos; [apply Hvalid | done]. Qed.

Lemma tiles_before_mono g h :
  (g ≤ h)%nat → (h ≤ Z.to_nat (G (meta_kw p)))%nat →
  tiles_before p offsets g ≤ tiles_before p offsets h.
Proof.
  induction 1 as [|h Hle IH]; intros Hh; [done|].
  simpl. pose proof (group_num_tiles_nonneg h ltac:(lia)). lia.
Qed.

Variable t : Z.
Variable fuel : nat.

(** One group: the program processes the local indices of its residue
    class, each once, with the variables the closed form gives, and is
    ready for the next group. *)
Lemma group_step_spec g st :
  (g < Z.to_nat (G (meta_kw p)))%nat →
  loop_inv p offsets t g st →
  (Z.to_nat (group_num_tiles p offsets g) ≤ fuel)%nat →
  ∃ xs st',
    group_step p offsets fuel st g = Some (ref_tile p offsets g <$> xs, st')
    ∧ loop_inv p offsets t (S g) st'
    ∧ NoDup xs
    ∧ ∀ x, x ∈ xs ↔
           0 ≤ x < group_num_tiles p offsets g
           ∧ (tiles_before p offsets g + x) `mod` NUM_SMS (meta_kw p) = t.
Proof.
  intros Hg [Hit Hlo Hhi Hmod Hm Hn Hk] Hfuel.
  pose proof (vl_num_sms _ _ Hvalid) as Hs.
  pose proof (group_num_tiles_nonneg g Hg) as Hnt.
  pose proof (group_n_size_nonneg g Hg) as Hns.
  assert (Hms : M_IS_DYNAMIC (meta_kw p) = true → 0 ≤ group_extent offsets g).
  { intros HM. apply group_extent_nonneg; [|done]. by rewrite HM. }
  destruct (decide (group_m_size p offsets g > 0)) as [Hpos|Hnpos].
  - (* the group has rows *)
    assert (HMpos : M_IS_DYNAMIC (meta_kw p) = false → 0 < M (meta_kw p)).
    { intros HM. unfold group_m_size in Hpos. rewrite HM in Hpos. lia. }
    assert (Hn' := fun H => Hn H HMpos).
    assert (Hk' := fun H => Hk H HMpos).
    destruct (tile_loop_spec (NUM_SMS (meta_kw p)) (ref_tile p offsets g)
                (tiles_before p offsets g) (group_num_tiles p offsets g) t Hs
                fuel (tidx st)) as (xs & x1 & Hrun & H01 & Hac & Hx1 & Hm1 & Hnd & Hin);
      [done | done | lia |].
    exists xs,
      {| tidx := x1;
         iterated_tiles := tiles_before p offsets (S g);
         m_end_offset := if M_IS_DYNAMIC (meta_kw p)
                         then load_offsets offsets g else m_end_offset st;
         n_end_offset := if N_IS_DYNAMIC (meta_kw p)
                         then load_offsets offsets g else n_end_offset st;
         k_end_offset := if K_IS_DYNAMIC (meta_kw p)
                         then load_offsets offsets g else k_end_offset st |}.
    split; [|split; [|split; [exact Hnd|]]].
    + unfold group_step. simpl tiles_before.
      unfold ref_tile, group_num_tiles, group_m_tiles, group_n_tiles,
        group_m_size, group_n_size, group_k_size, group_extent in Hrun, Hpos |- *.
      rewrite bool_decide_true in Hrun |- * by done.
      destruct (M_IS_DYNAMIC (meta_kw p)) eqn:HM,
               (N_IS_DYNAMIC (meta_kw p)) eqn:HN,
               (K_IS_DYNAMIC (meta_kw p)) eqn:HK;
        rewrite ?Hm, ?Hn', ?Hk' by done;
        rewrite Hit; cbn zeta beta iota;
        rewrite bool_decide_true by done;
        rewrite Hrun; reflexivity.
    + assert (Hsucc : tiles_before p offsets (S g)
                      = tiles_before p offsets g + group_num_tiles p offsets g)
        by done.
      constructor; simpl tidx; simpl iterated_tiles; simpl m_end_offset;
        simpl n_end_offset; simpl k_end_offset.
      * done.
      * lia.
      * lia.
      * done.
      * by intros ->.
      * by intros -> _.
      * by intros -> _.
    + intros x. rewrite Hin. split; [lia|]. intros [Hx Hxm].
      split; [|done]. split; [|lia].
      destruct (decide (tidx st - tiles_before p offsets g ≤ x)); [done|].
      pose proof (mod_gap (NUM_SMS (meta_kw p)) (tidx st)
                    (tiles_before p offsets g + x) Hs ltac:(congruence)
                    ltac:(lia)).
      lia.
  - (* the group has no rows: it is skipped *)
    assert (Hzero : group_num_tiles p offsets g = 0).
    { unfold group_num_tiles. by rewrite bool_decide_false. }
    exists [],
      {| tidx := tidx st;
         iterated_tiles := iterated_tiles st;
         m_end_offset := if M_IS_DYNAMIC (meta_kw p)
                         then load_offsets offsets g else m_end_offset st;
         n_end_offset := n_end_offset st;
         k_end_offset := k_end_offset st |}.
    assert (Hext : M_IS_DYNAMIC (meta_kw p) = true →
                   load_offsets offsets g = group_start offsets g).
    { intros HM. specialize (Hms HM).
      unfold group_m_size in Hnpos. rewrite HM in Hnpos.
      unfold group_extent in *. lia. }
    assert (Hstat : ¬ (M_IS_DYNAMIC (meta_kw p) = false ∧ 0 < M (meta_kw p))).
    { intros [HM HMpos]. unfold group_m_size in Hnpos.
      rewrite HM in Hnpos. lia. }
    split; [|split; [|split; [apply NoDup_nil_2|]]].
    + unfold group_step.
      unfold group_m_size, group_extent in Hnpos.
      destruct (M_IS_DYNAMIC (meta_kw p)) eqn:HM;
        rewrite ?Hm by done; cbn zeta beta iota;
        rewrite bool_decide_false by done; reflexivity.
    + constructor; simpl tidx; simpl iterated_tiles; simpl m_end_offset;
        simpl n_end_offset; simpl k_end_offset; simpl tiles_before;
        rewrite ?Hzero, ?Z.add_0_r; try done.
      * by intros ->.
      * intros HN HMp. rewrite Hn by done. simpl.
        destruct (M_IS_DYNAMIC (meta_kw p)) eqn:HM.
        -- symmetry. by apply Hext.
        -- destruct Hstat. split; [done|]. by apply HMp.
      * intros HK HMp. rewrite Hk by done. simpl.
        destruct (M_IS_DYNAMIC (meta_kw p)) eqn:HM.
        -- symmetry. by apply Hext.
        -- destruct Hstat. split; [done|]. by apply HMp.
    + intros x. rewrite elem_of_nil, Hzero. split; [done|]. lia.
Qed.

Lemma work_item_ref_tile_inj g x y :
  work_item (ref_tile p offsets g x) = work_item (ref_tile p offsets g y) →
  x = y.
Proof.
  unfold work_item, ref_tile. simpl. intros [= Hm Hd].
  by eapply decode_inj.
Qed.

Hypothesis Hfuel :
  (Z.to_nat (tiles_before p offsets (Z.to_nat (G (meta_kw p)))) ≤ fuel)%nat.

Lemma group_fuel g :
  (g < Z.to_nat (G (meta_kw p)))%nat →
  (Z.to_nat (group_num_tiles p offsets g) ≤ fuel)%nat.
Proof.
  intros Hg.
  pose proof (tiles_before_mono 0 g ltac:(lia) ltac:(lia)) as H0.
  pose proof (tiles_before_mono (S g) (Z.to_nat (G (meta_kw p)))
                ltac:(lia) ltac:(lia)) as H1.
  pose proof (group_num_tiles_nonneg g Hg).
  simpl in H0, H1. lia.
Qed.

(** A run over the groups [g0 .. g0 + n - 1]. *)
Lemma run_groups_spec n : ∀ g0 st,
  (g0 + n ≤ Z.to_nat (G (meta_kw p)))%nat →
  loop_inv p offsets t g0 st →
  ∃ tiles st',
    run_groups p offsets fuel st (seq g0 n) = Some (tiles, st')
    ∧ loop_inv p offsets t (g0 + n) st'
    ∧ NoDup (work_item <$> tiles)
    ∧ ∀ e, e ∈ tiles ↔
           ∃ g x, (g0 ≤ g < g0 + n)%nat
                  ∧ 0 ≤ x < group_num_tiles p offsets g
                  ∧ (tiles_before p offsets g + x) `mod` NUM_SMS (meta_kw p) = t
                  ∧ e = ref_tile p offsets g x.
Proof.
  induction n as [|n IH]; intros g0 st Hle Hinv.
  - exists [], st. simpl. rewrite Nat.add_0_r.
    split_and!; [done | done | apply NoDup_nil_2 |].
    intros e. rewrite elem_of_nil. split; [done|].
    intros (g & x & ? & _). lia.
  - destruct (group_step_spec g0 st ltac:(lia) Hinv (group_fuel g0 ltac:(lia)))
      as (xs & st1 & Hstep & Hinv1 & Hnd & Hin).
    destruct (IH (S g0) st1 ltac:(lia) Hinv1)
      as (tiles & st2 & Hrun & Hinv2 & Hnd2 & Hin2).
    exists ((ref_tile p offsets g0 <$> xs) ++ tiles), st2.
    split_and!.
    + simpl. by rewrite Hstep, Hrun.
    + by replace (g0 + S n)%nat with (S g0 + n)%nat by lia.
    + rewrite fmap_app. apply NoDup_app. split_and!; [| |done].
      * rewrite <- list_fmap_compose.
        apply NoDup_fmap_2_strong; [|done].
        intros x y _ _. apply work_item_ref_tile_inj.
      * intros w (e1 & -> & He1)%list_elem_of_fmap (e2 & Hw & He2)%list_elem_of_fmap.
        apply list_elem_of_fmap in He1 as (x & -> & _).
        apply Hin2 in He2 as (g & y & Hg & _ & _ & ->).
        unfold work_item in Hw. simpl in Hw. injection Hw as Hgg _ _. lia.
    + intros e. rewrite elem_of_app, list_elem_of_fmap, Hin2. split.
      * intros [(x & -> & Hx)|(g & x & Hg & Hx)].
        -- exists g0, x. apply Hin in Hx as [Hx Hxm].
           split_and!; [lia | lia | lia | lia | done | done].
        -- exists g, x. split; [lia|done].
      * intros (g & x & Hg & Hx & Hm & ->).
        destruct (decide (g = g0)) as [->|Hne].
        -- left. exists x. split; [done|]. by apply Hin.
        -- right. exists g, x. split; [lia|done].
Qed.

(** One program. *)
Lemma kernel_spec :
  0 ≤ t < NUM_SMS (meta_kw p) →
  ∃ tiles,
    kernel p offsets fuel t = Some tiles
    ∧ NoDup (work_item <$> tiles)
    ∧ ∀ e, e ∈ tiles ↔
           ∃ g x, (g < Z.to_nat (G (meta_kw p)))%nat
                  ∧ 0 ≤ x < group_num_tiles p offsets g
                  ∧ (tiles_before p offsets g + x) `mod` NUM_SMS (meta_kw p) = t
                  ∧ e = ref_tile p offsets g x.
Proof.
  intros Ht.
  destruct (run_groups_spec (Z.to_nat (G (meta_kw p))) 0
              {| tidx := t; iterated_tiles := 0; m_end_offset := 0;
                 n_end_offset := 0; k_end_offset := 0 |})
    as (tiles & st' & Hrun & _ & Hnd & Hin).
  { lia. }
  { constructor; simpl; try done; try lia. apply Z.mod_small. lia. }
  exists tiles. unfold kernel. rewrite Hrun. split_and!; [done|done|].
  intros e. rewrite Hin. split.
  - intros (g & x & Hg & H). exists g, x. split; [lia|done].
  - intros (g & x & Hg & H). exists g, x. split; [lia|done].
Qed.

End Groups.

(** ** The reference enumeration *)

Section Reference.

Variable p : Meta.
Variable offsets : list Z.

Lemma elem_of_reference_tiles g tm tn :
  (g, tm, tn) ∈ reference_tiles p offsets ↔
  (g < Z.to_nat (G (meta_kw p)))%nat
  ∧ group_m_size p offsets g > 0 ∧ group_n_size p offsets g > 0
  ∧ 0 ≤ tm < group_m_tiles p offsets g
  ∧ 0 ≤ tn < group_n_tiles p offsets g.
Proof.
  unfold reference_tiles. rewrite list_elem_of_bind. split.
  - intros (g' & Hin & Hg'%elem_of_seq).
    destruct (bool_decide (group_m_size p offsets g' > 0)) eqn:Hm;
      destruct (bool_decide (group_n_size p offsets g' > 0)) eqn:Hn;
      simpl in Hin; try by apply elem_of_nil in Hin.
    apply bool_decide_eq_true in Hm, Hn.
    apply list_elem_of_bind in Hin as (tn' & Hin & Htn%elem_of_seqZ).
    apply list_elem_of_bind in Hin as (tm' & Hin & Htm%elem_of_seqZ).
    apply list_elem_of_singleton in Hin. injection Hin as -> -> ->.
    split_and!; try done; lia.
  - intros (Hg & Hm & Hn & Htm & Htn). exists g. split.
    + rewrite !bool_decide_true by done. simpl.
      apply list_elem_of_bind. exists tn. split; [|apply elem_of_seqZ; lia].
      apply list_elem_of_bind. exists tm. split; [|apply elem_of_seqZ; lia].
      by apply list_elem_of_singleton.
    + apply elem_of_seq. lia.
Qed.

Lemma NoDup_reference_tiles : NoDup (reference_tiles p offsets).
Proof.
  unfold reference_tiles. apply NoDup_bind; [| |apply NoDup_seq].
  - intros g1 g2 w _ _ H1 H2.
    destruct (_ && _); [|by apply elem_of_nil in H1].
    destruct (_ && _); [|by apply elem_of_nil in H2].
    apply list_elem_of_bind in H1 as (? & H1 & _).
    apply list_elem_of_bind in H1 as (? & H1 & _).
    apply list_elem_of_bind in H2 as (? & H2 & _).
    apply list_elem_of_bind in H2 as (? & H2 & _).
    apply list_elem_of_singleton in H1, H2. congruence.
  - intros g _. destruct (_ && _); [|apply NoDup_nil_2].
    apply NoDup_bind; [| |apply NoDup_seqZ].
    + intros tn1 tn2 w _ _ H1 H2.
      apply list_elem_of_bind in H1 as (? & H1 & _).
      apply list_elem_of_bind in H2 as (? & H2 & _).
      apply list_elem_of_singleton in H1, H2. congruence.
    + intros tn _. apply NoDup_bind; [| |apply NoDup_seqZ].
      * intros tm1 tm2 w _ _ H1 H2.
        apply list_elem_of_singleton in H1, H2. congruence.
      * intros tm _. apply NoDup_singleton.
Qed.

End Reference.

(** ** All programs together *)

Lemma mapM_default {A B} (f : A → option (list B)) (l : list A) :
  (∀ x, x ∈ l → is_Some (f x)) →
  mapM f l = Some ((λ x, default [] (f x)) <$> l).
Proof.
  induction l as [|x l IH]; intros Hall; [done|].
  destruct (Hall x) as [y Hy]; [by left|].
  simpl. rewrite Hy. simpl. rewrite IH; [done|].
  intros z Hz. apply Hall. by right.
Qed.

Lemma fmap_concat_bind {A B C} (f : B → C) (h : A → list B) (l : list A) :
  f <$> concat (h <$> l) = l ≫= (λ x, f <$> h x).
Proof.
  induction l as [|x l IH]; [done|].
  rewrite fmap_cons, bind_cons. cbn [concat]. by rewrite fmap_app, IH.
Qed.

Section Launch.

Variable p : Meta.
Variable offsets : list Z.
Hypothesis Hvalid : valid_launch p offsets.
Variable fuel : nat.
Hypothesis Hfuel :
  (Z.to_nat (tiles_before p offsets (Z.to_nat (G (meta_kw p)))) ≤ fuel)%nat.

Lemma program_tiles_spec t :
  0 ≤ t < NUM_SMS (meta_kw p) →
  kernel p offsets fuel t = Some (program_tiles p offsets fuel t)
  ∧ NoDup (work_item <$> program_tiles p offsets fuel t)
  ∧ ∀ e, e ∈ program_tiles p offsets fuel t ↔
         ∃ g x, (g < Z.to_nat (G (meta_kw p)))%nat
                ∧ 0 ≤ x < group_num_tiles p offsets g
                ∧ (tiles_before p offsets g + x) `mod` NUM_SMS (meta_kw p) = t
                ∧ e = ref_tile p offsets g x.
Proof.
  intros Ht.
  destruct (kernel_spec p offsets Hvalid t fuel Hfuel Ht) as (tiles & Hk & Hnd & Hin).
  unfold program_tiles. rewrite Hk. done.
Qed.

Lemma launch_programs :
  launch p offsets fuel
  = Some (program_tiles p offsets fuel <$> persistent_grouped_mm_grid p).
Proof.
  unfold launch. apply mapM_default.
  intros t Ht%elem_of_seqZ.
  destruct (program_tiles_spec t ltac:(lia)) as [-> _]. done.
Qed.

(** The work items of a launch are those of the closed form. *)
Lemma elem_of_launch_items w :
  w ∈ work_item <$> concat (program_tiles p offsets fuel <$> persistent_grouped_mm_grid p) ↔
  ∃ g x, (g < Z.to_nat (G (meta_kw p)))%nat
         ∧ 0 ≤ x < group_num_tiles p offsets g
         ∧ w = work_item (ref_tile p offsets g x).
Proof.
  pose proof (vl_num_sms _ _ Hvalid) as Hs.
  rewrite fmap_concat_bind, list_elem_of_bind. split.
  - intros (t & (e & -> & He)%list_elem_of_fmap & Ht%elem_of_seqZ).
    destruct (program_tiles_spec t ltac:(lia)) as (_ & _ & Hin).
    apply Hin in He as (g & x & Hg & Hx & _ & ->). by exists g, x.
  - intros (g & x & Hg & Hx & ->).
    exists ((tiles_before p offsets g + x) `mod` NUM_SMS (meta_kw p)).
    pose proof (Z.mod_pos_bound (tiles_before p offsets g + x)
                  (NUM_SMS (meta_kw p)) Hs) as Hb.
    split; [|apply elem_of_seqZ; lia].
    apply list_elem_of_fmap. eexists. split; [done|].
    destruct (program_tiles_spec _ Hb) as (_ & _ & Hin).
    apply Hin. by exists g, x.
Qed.

Lemma NoDup_launch_items :
  NoDup (work_item <$> concat (program_tiles p offsets fuel <$> persistent_grouped_mm_grid p)).
Proof.
  rewrite fmap_concat_bind. apply NoDup_bind; [| |apply NoDup_seqZ].
  - intros t1 t2 w Ht1%elem_of_seqZ Ht2%elem_of_seqZ
      (e1 & -> & He1)%list_elem_of_fmap (e2 & Hw & He2)%list_elem_of_fmap.
    destruct (program_tiles_spec t1 ltac:(lia)) as (_ & _ & Hin1).
    destruct (program_tiles_spec t2 ltac:(lia)) as (_ & _ & Hin2).
    apply Hin1 in He1 as (g1 & x1 & _ & _ & <- & ->).
    apply Hin2 in He2 as (g2 & x2 & _ & _ & <- & ->).
    assert (g1 = g2) as -> by (unfold work_item in Hw; simpl in Hw; congruence).
    by rewrite (work_item_ref_tile_inj p offsets g2 x1 x2 Hw).
  - intros t Ht%elem_of_seqZ.
    by destruct (program_tiles_spec t ltac:(lia)) as (_ & Hnd & _).
Qed.

(** The closed form and the reference enumeration list the same work
    items. *)
Lemma closed_form_reference w :
  (∃ g x, (g < Z.to_nat (G (meta_kw p)))%nat
          ∧ 0 ≤ x < group_num_tiles p offsets g
          ∧ w = work_item (ref_tile p offsets g x))
  ↔ w ∈ reference_tiles p offsets.
Proof using Hvalid.
  clear Hfuel.
  pose proof (vl_block_n _ _ Hvalid) as Hbn.
  destruct w as [[g tm] tn]. rewrite elem_of_reference_tiles. split.
  - intros (g' & x & Hg & Hx & Hw).
    unfold work_item, ref_tile in Hw. simpl in Hw. injection Hw as -> -> ->.
    unfold group_num_tiles in Hx. case_bool_decide as Hm; [|lia].
    pose proof (group_m_tiles_pos p offsets Hvalid g' ltac:(lia)) as Hmt.
    destruct (decode_range _ _ x Hmt Hx) as [Htm Htn].
    split_and!; try done; try lia.
    assert (0 < group_n_size p offsets g'); [|lia].
    apply (cdiv_pos_inv _ (BLOCK_N p)); [done|].
    unfold group_n_tiles in Htn. lia.
  - intros (Hg & Hm & Hn & Htm & Htn).
    exists g, (tn * group_m_tiles p offsets g + tm).
    split; [done|]. split.
    + unfold group_num_tiles. rewrite bool_decide_true by done. nia.
    + unfold work_item, ref_tile. simpl.
      destruct (decode_encode (group_m_tiles p offsets g) tm tn) as [-> ->];
        done.
Qed.

End Launch.


Lemma example_valid_launch : valid_launch example_meta example_offsets.
Proof.
  constructor; simpl; [lia | lia | lia | done |].
  intros _. split; [reflexivity|]. lia.
Defined.


(** ** The scale-and-store stage *)

Lemma to_int64_small x : 0 ≤ x < 2 ^ 63 → to_int64 x = x.
Proof. intros Hx. unfold to_int64. rewrite Z.mod_small; lia. Qed.

Section StageProps.

Context {F : Type}.
Variable fmul : F → F → F.
Variable scale_a_mem scale_b_mem : Z → F.
Variable accumulator : TileEnv → Z → Z → F.
Variable p : Meta.
Variable offsets : list Z.
Hypothesis HG : G (meta_kw p) ≤ 2 ^ 63.

(** The stage on the tile the closed form gives for local index [x] of
    group [g]. *)
Lemma stage_ref_tile g x i j :
  (g < Z.to_nat (G (meta_kw p)))%nat →
  let e := ref_tile p offsets g x in
  let row := tile_m_idx e * BLOCK_M p + i in
  let col := tile_n_idx e * BLOCK_N p + j in
  scale_a_offset p e i
    = (base ← spec_scale_a_base p offsets g; Some (base + row))
  ∧ scale_b_offset p e j
    = (base ← spec_scale_b_base p offsets g; Some (base + col))
  ∧ (∀ sa sb,
       scale_a_offset p e i = Some sa → scale_b_offset p e j = Some sb →
       store_output fmul scale_a_mem scale_b_mem accumulator p e i j
       = if mask p e i j
         then Some (spec_store_indices p offsets g row col,
                    fmul (fmul (accumulator e i j) (scale_a_mem sa))
                      (scale_b_mem sb))
         else None)
  ∧ (mask p e i j = true ↔
     row < group_m_size p offsets g ∧ col < group_n_size p offsets g).
Proof.
  intros Hg e row col.
  assert (Hg64 : to_int64 (Z.of_nat g) = Z.of_nat g).
  { apply to_int64_small. lia. }
  split_and!.
  - unfold scale_a_offset, spec_scale_a_base, offs_am. subst e row. simpl.
    rewrite Hg64.
    destruct (A_IS_2D (meta_kw p)), (M_IS_DYNAMIC (meta_kw p)); done.
  - unfold scale_b_offset, spec_scale_b_base, offs_bn. subst e col. simpl.
    rewrite Hg64.
    destruct (B_IS_2D (meta_kw p)), (N_IS_DYNAMIC (meta_kw p)); done.
  - intros sa sb Ha Hb.
    unfold store_output, c, scale_a, scale_b, mask.
    destruct (row_mask p e i) eqn:Hr; [|done].
    destruct (col_mask p e j) eqn:Hc; [|done].
    rewrite Ha, Hb. simpl. do 2 f_equal.
    unfold store_indices, spec_store_indices, idx_m, idx_n, offs_am, offs_bn.
    subst e row col. simpl.
    destruct (M_IS_DYNAMIC (meta_kw p)), (N_IS_DYNAMIC (meta_kw p)); done.
  - unfold mask, row_mask, col_mask, offs_am, offs_bn.
    rewrite andb_true_iff, !bool_decide_eq_true. done.
Qed.

End StageProps.



(** ** The pruner *)

Lemma bind_inr {A B} (m : Py.M A) (k : A → Py.M B) (b : B) :
  Py.bind m k = inr b → ∃ a, m = inr a ∧ k a = inr b.
Proof. destruct m as [e|a]; simpl; [done|]. intros H. by exists a. Qed.

(** No [Config] has an attribute [num_consumer_groups]: the pruner reads
    the default. *)
Lemma getattr_num_consumer_groups (c : Config) :
  getattr c "num_consumer_groups" (VInt 0) = VInt 0.
Proof. reflexivity. Qed.

Lemma use_warp_specialization_false (c : Config) :
  use_warp_specialization c = Py.ret false.
Proof. reflexivity. Qed.

(** The loop keeps the configs whose verdict is [Keep], in order, after
    what was accumulated; it returns only if no verdict raised. *)
Lemma prune_loop_spec env named_args configs : ∀ acc out,
  prune_loop env named_args configs acc = Py.ret out →
  out = acc ++ filter (λ c, prune_verdict env named_args c = Py.ret Keep) configs
  ∧ Forall (λ c, ∃ v, prune_verdict env named_args c = Py.ret v) configs.
Proof.
  induction configs as [|c configs IH]; intros acc out Hrun.
  - simpl in Hrun. injection Hrun as <-. by rewrite app_nil_r.
  - simpl in Hrun. apply bind_inr in Hrun as (v & Hv & Hrun).
    apply IH in Hrun as [-> Hall]. split; [|constructor; eauto].
    rewrite filter_cons. destruct v; rewrite Hv.
    + rewrite decide_True by done. by rewrite <- app_assoc.
    + by rewrite decide_False.
    + by rewrite decide_False.
    + by rewrite decide_False.
    + by rewrite decide_False.
    + by rewrite decide_False.
    + by rewrite decide_False.
Qed.

Lemma prune_loop_total env named_args configs : ∀ acc,
  Forall (λ c, ∃ v, prune_verdict env named_args c = Py.ret v) configs →
  ∃ out, prune_loop env named_args configs acc = Py.ret out.
Proof.
  induction configs as [|c configs IH]; intros acc Hall.
  - by exists acc.
  - apply Forall_cons in Hall as [[v Hv] Hall]. simpl. rewrite Hv. simpl.
    apply IH, Hall.
Qed.

Lemma elem_of_early_config_prune env named_args configs out c :
  early_config_prune env configs named_args = Py.ret out →
  c ∈ out ↔ c ∈ configs ∧ prune_verdict env named_args c = Py.ret Keep.
Proof.
  intros [-> _]%prune_loop_spec. simpl. rewrite list_elem_of_filter. tauto.
Qed.

(** The verdict with the three tile sizes read. *)
Lemma prune_verdict_blocks env named_args c bm bn bk :
  kwargs c !! "BLOCK_M" = Some bm →
  kwargs c !! "BLOCK_N" = Some bn →
  kwargs c !! "BLOCK_K" = Some bk →
  prune_verdict env named_args c =
  let* M_PER_GROUP :=
    if M_IS_DYNAMIC named_args
    then Py.floordiv (next_power_of_2 env (M named_args)) (G named_args)
    else Py.ret (M named_args) in
  let* N_PER_GROUP :=
    if N_IS_DYNAMIC named_args
    then Py.floordiv (next_power_of_2 env (N named_args)) (G named_args)
    else Py.ret (N named_args) in
  if bool_decide
       (required_shared_memory env bm bn bk (num_stages c)
        > get_gpu_shared_memory env)
  then Py.ret RejectSharedMemory else
  if bool_decide (bm > (if hip env then 32 else 64))
     && bool_decide (bm > M_PER_GROUP * 2)
  then Py.ret RejectMTooBig else
  if bool_decide (bm < 128) && bool_decide (bm < M_PER_GROUP `div` 2)
  then Py.ret RejectMTooSmall else
  let* N_TILES := Py.floordiv N_PER_GROUP bn in
  if bool_decide (bn > (if hip env then 32 else 64))
     && bool_decide (G named_args * M_PER_GROUP * N_TILES < get_num_sms env)
  then Py.ret RejectNTooBig else
  if bool_decide (bn < 128)
     && bool_decide (G named_args * M_PER_GROUP * N_TILES > 2 * get_num_sms env)
  then Py.ret RejectNTooSmall
  else Py.ret Keep.
Proof.
  intros Hm Hn Hk. unfold prune_verdict, use_warp_specialization, Py.getitem.
  rewrite Hm, Hn, Hk. simpl.
  destruct (if M_IS_DYNAMIC named_args then _ else _) as [?|mpg]; [done|]. simpl.
  destruct (if N_IS_DYNAMIC named_args then _ else _) as [?|npg]; [done|]. simpl.
  repeat (case_match; try done).
Qed.

(** C4. The shared-memory check: whenever the pruner returns, a config is
    rejected by the check of shared memory if and only if the estimate,
    [(BLOCK_M + BLOCK_N) * BLOCK_K * num_stages * dtsize] for the generic
    family and [BLOCK_N * BLOCK_K * num_stages * dtsize] for the alternate
    vendor, exceeds the limit; such a config is not in the output. The
    element size [dtsize] is the one byte of the operands of the scaled
    product. *)
Theorem shared_memory_check (env : Env) (named_args : TemplateKwargs)
    (configs out : list Config) (c : Config) (bm bn bk : Z) :
  early_config_prune env configs named_args = Py.ret out →
  c ∈ configs →
  kwargs c !! "BLOCK_M" = Some bm →
  kwargs c !! "BLOCK_N" = Some bn →
  kwargs c !! "BLOCK_K" = Some bk →
  let estimate :=
    if hip env then bn * bk * num_stages c * dtsize
    else (bm + bn) * bk * num_stages c * dtsize in
  (prune_verdict env named_args c = Py.ret RejectSharedMemory
   ↔ estimate > get_gpu_shared_memory env)
  ∧ (estimate > get_gpu_shared_memory env → c ∉ out)
  ∧ (c ∈ out → estimate ≤ get_gpu_shared_memory env)
  ∧ dtsize = 1.
Proof.
  intros Hrun Hc Hm Hn Hk estimate.
  assert (Hiff : prune_verdict env named_args c = Py.ret RejectSharedMemory
                 ↔ estimate > get_gpu_shared_memory env).
  { destruct (prune_loop_spec _ _ _ _ _ Hrun) as [_ Hall].
    rewrite Forall_forall in Hall. destruct (Hall c Hc) as [v Hv].
    rewrite (prune_verdict_blocks env named_args c bm bn bk Hm Hn Hk) in Hv |- *.
    unfold required_shared_memory in *. fold estimate in Hv |- *.
    destruct (if M_IS_DYNAMIC named_args then _ else _) as [?|mpg]; [done|].
    destruct (if N_IS_DYNAMIC named_args then _ else _) as [?|npg]; [done|].
    simpl in Hv |- *.
    case_bool_decide as Hest; [done|].
    split; [|done]. intros Hrej. exfalso.
    clear Hv.
    repeat (case_match; simpl in *; try done).
    all: apply bind_inr in Hrej as (nt & _ & Hrej).
    all: repeat (case_match; simpl in *; try done). }
  split; [done|]. split; [|split; [|done]].
  - intros Hest Hin.
    apply (elem_of_early_config_prune _ _ _ _ _ Hrun) in Hin as [_ Hkeep].
    apply Hiff in Hest. rewrite Hest in Hkeep. done.
  - intros Hin.
    apply (elem_of_early_config_prune _ _ _ _ _ Hrun) in Hin as [_ Hkeep].
    destruct (decide (estimate > get_gpu_shared_memory env)) as [Hest|]; [|lia].
    apply Hiff in Hest. rewrite Hest in Hkeep. done.
Qed.

Lemma example_config_generated : example_config ∈ _NV_CONFIGS.
Proof. apply list_elem_of_here. Defined.

Lemma example_prune_returns :
  early_config_prune example_env _NV_CONFIGS example_named_args
  = Py.ret (pruned_or_nil example_env _NV_CONFIGS example_named_args).
Proof. vm_compute. reflexivity. Defined.

Lemma shared_memory_check_witness :
  let estimate := (64 + 64) * 64 * 3 * dtsize in
  (prune_verdict example_env example_named_args example_config
   = Py.ret RejectSharedMemory
   ↔ estimate > get_gpu_shared_memory example_env)
  ∧ (estimate > get_gpu_shared_memory example_env →
     example_config ∉ pruned_or_nil example_env _NV_CONFIGS example_named_args)
  ∧ (example_config ∈ pruned_or_nil example_env _NV_CONFIGS example_named_args →
     estimate ≤ get_gpu_shared_memory example_env)
  ∧ dtsize = 1.
Proof.
  exact (shared_memory_check example_env example_named_args _NV_CONFIGS
           (pruned_or_nil example_env _NV_CONFIGS example_named_args)
           example_config 64 64 64
           example_prune_returns example_config_generated
           eq_refl eq_refl eq_refl).
Defined.

(** Every config of the generic family carries the three tile sizes, none
    of them zero. *)
Lemma generic_config_blocks c :
  c ∈ _NV_CONFIGS →
  ∃ bm bn bk,
    kwargs c !! "BLOCK_M" = Some bm
    ∧ kwargs c !! "BLOCK_N" = Some bn
    ∧ kwargs c !! "BLOCK_K" = Some bk
    ∧ bn ≠ 0.
Proof.
  unfold _NV_CONFIGS. intros H.
  apply list_elem_of_bind in H as (bm & H & _).
  apply list_elem_of_bind in H as (bn & H & Hbn).
  apply list_elem_of_bind in H as (bk & H & _).
  apply list_elem_of_bind in H as (st & H & _).
  apply list_elem_of_bind in H as (w & H & _).
  apply list_elem_of_singleton in H as ->.
  exists bm, bn, bk. split_and!; [done | done | done |].
  repeat (apply elem_of_cons in Hbn as [->|Hbn]; [done|]).
  by apply elem_of_nil in Hbn.
Qed.

Lemma floordiv_ret a b q : Py.floordiv a b = Py.ret q → b ≠ 0 ∧ q = a `div` b.
Proof.
  unfold Py.floordiv. case_decide; [done|]. by intros [= <-].
Qed.

(** C5. A tiny dynamic M prunes the 128-row tile: for the generic family,
    when M is dynamic and [M_PER_GROUP = next_power_of_2(M) // G] is 8, the
    pruner returns and no surviving config has [BLOCK_M = 128]. *)
Theorem tiny_dynamic_m_drops_block_m_128 (env : Env) (named_args : TemplateKwargs) :
  hip env = false →
  M_IS_DYNAMIC named_args = true →
  Py.floordiv (next_power_of_2 env (M named_args)) (G named_args) = Py.ret 8 →
  ∃ out,
    early_config_prune env (scaled_grouped_mm_configs env) named_args = Py.ret out
    ∧ ∀ c, c ∈ out → kwargs c !! "BLOCK_M" ≠ Some 128.
Proof.
  intros Hhip HM Hmpg.
  destruct (floordiv_ret _ _ _ Hmpg) as [HG _].
  unfold scaled_grouped_mm_configs. rewrite Hhip.
  assert (Hverdict : ∀ c, c ∈ _NV_CONFIGS →
            ∃ v, prune_verdict env named_args c = Py.ret v
                 ∧ (kwargs c !! "BLOCK_M" = Some 128 → v ≠ Keep)).
  { intros c (bm & bn & bk & Hbm & Hbn & Hbk & Hnz)%generic_config_blocks.
    rewrite (prune_verdict_blocks env named_args c bm bn bk Hbm Hbn Hbk).
    rewrite HM, Hmpg, Hhip. simpl.
    assert (∃ npg, (if N_IS_DYNAMIC named_args
                    then Py.floordiv (next_power_of_2 env (N named_args))
                           (G named_args)
                    else Py.ret (N named_args)) = Py.ret npg) as [npg ->].
    { destruct (N_IS_DYNAMIC named_args); [|by eexists].
      unfold Py.floordiv. rewrite decide_False by done. by eexists. }
    simpl. unfold Py.floordiv. rewrite (decide_False (P := bn = 0)) by done.
    simpl.
    case_bool_decide; [eexists; split; [done|done]|].
    destruct (decide (bm = 128)) as [->|Hne].
    - simpl. eexists; split; [done|done].
    - repeat case_match; eexists; (split; [done|]); intros ?; congruence. }
  destruct (prune_loop_total env named_args _NV_CONFIGS []) as [out Hout].
  { apply Forall_forall. intros c Hc.
    destruct (Hverdict c Hc) as (v & Hv & _). by exists v. }
  exists out. split; [done|].
  intros c Hc H128.
  apply (elem_of_early_config_prune _ _ _ _ _ Hout) in Hc as [Hc Hkeep].
  destruct (Hverdict c Hc) as (v & Hv & Hne).
  rewrite Hkeep in Hv. injection Hv as <-. by apply Hne.
Qed.

Lemma tiny_dynamic_m_drops_block_m_128_witness :
  ∃ out,
    early_config_prune example_env (scaled_grouped_mm_configs example_env)
      example_named_args = Py.ret out
    ∧ ∀ c, c ∈ out → kwargs c !! "BLOCK_M" ≠ Some 128.
Proof.
  apply (tiny_dynamic_m_drops_block_m_128 example_env example_named_args).
  - reflexivity.
  - reflexivity.
  - vm_compute. reflexivity.
Defined.

(** C2, as stated, fails: a config of the generic family for which the
    predicate [num_consumer_groups >= 1] is false; with 16 rows per group it
    is rejected by the check of oversized M tiles, and a config of 8 warps
    survives the pruner, the partitioning check not being applied. *)
Lemma warp_specialization_counterexample :
  example_config_m128 ∈ _NV_CONFIGS
  ∧ use_warp_specialization example_config_m128 = Py.ret false
  ∧ prune_verdict example_env (static_named_args 4 16 1024 64)
      example_config_m128 = Py.ret RejectMTooBig
  ∧ prune_verdict example_env (static_named_args 1 64 128 64)
      example_config_warps8 = Py.ret RejectNTooBig
  ∧ example_config_warps8 ∈ _NV_CONFIGS
  ∧ num_warps example_config_warps8 = 8
  ∧ prune_verdict example_env (static_named_args 4 64 1024 64)
      example_config_warps8 = Py.ret Keep.
Proof.
  split_and!; try (vm_compute; reflexivity).
  - apply (bool_decide_unpack _). vm_compute. exact I.
  - apply (bool_decide_unpack _). vm_compute. exact I.
Qed.

(** C2, amended. For every config of either family the pruner reads
    [num_consumer_groups] as the default 0, the [Config] record having no
    such attribute: the predicate of warp specialization is false, and the
    partitioning check of warp specialization rejects no such config,
    whatever the problem and the device. *)
Theorem generated_configs_not_warp_specialized (env : Env)
    (named_args : TemplateKwargs) (c : Config) :
  c ∈ _NV_CONFIGS ++ _AMD_CONFIGS →
  getattr c "num_consumer_groups" (VInt 0) = VInt 0
  ∧ use_warp_specialization c = Py.ret false
  ∧ prune_verdict env named_args c ≠ Py.ret RejectWarpSpec.
Proof.
  intros _. split; [done|]. split; [done|].
  unfold prune_verdict, use_warp_specialization.
  rewrite getattr_num_consumer_groups. simpl.
  intros Hv.
  repeat (apply bind_inr in Hv as (? & _ & Hv)).
  repeat (case_match; try done;
          try (apply bind_inr in Hv as (? & _ & Hv))).
Qed.

Lemma generated_configs_not_warp_specialized_witness :
  getattr example_config_warps8 "num_consumer_groups" (VInt 0) = VInt 0
  ∧ use_warp_specialization example_config_warps8 = Py.ret false
  ∧ prune_verdict example_env example_named_args example_config_warps8
    ≠ Py.ret RejectWarpSpec.
Proof.
  apply (generated_configs_not_warp_specialized example_env example_named_args
           example_config_warps8).
  apply elem_of_app. left. apply (bool_decide_unpack _). vm_compute. exact I.
Defined.

(** ** The eligibility gate *)

(** C3, as stated, fails: with offsets, a 3-D A and a 2-D B of [K = 64],
    [N = 16] pass the gate although [N < 32], and so do a 2-D A and a 3-D B
    of [K = 64], [N = 16]; a 3-D A and a 2-D B of [K = 16], [N = 64] are
    refused although [N >= 32]. *)
Lemma eligibility_table_counterexample :
  let offs := Some (int32_tensor [4] [1]) in
  let a3 := fp8_tensor [4; 128; 64] [8192; 64; 1] in
  let a2 := fp8_tensor [128; 64] [64; 1] in
  (can_use_triton_kernel example_env a3 (fp8_tensor [64; 16] [1; 64]) offs None
   = Py.ret true
   ∧ spec_gate example_env a3 (fp8_tensor [64; 16] [1; 64]) offs None = false)
  ∧ (can_use_triton_kernel example_env a2 (fp8_tensor [4; 64; 16] [1024; 1; 64])
       offs None = Py.ret true
     ∧ spec_gate example_env a2 (fp8_tensor [4; 64; 16] [1024; 1; 64]) offs None
       = false)
  ∧ (can_use_triton_kernel example_env
       (fp8_tensor [4; 128; 16] [2048; 16; 1]) (fp8_tensor [16; 64] [1; 16])
       offs None = Py.ret false
     ∧ spec_gate example_env
         (fp8_tensor [4; 128; 16] [2048; 16; 1]) (fp8_tensor [16; 64] [1; 16])
         offs None = true).
Proof. vm_compute. repeat split. Qed.

(** C3, amended. For operands of rank 2 or 3 the gate returns true exactly
    when the device has tensor descriptors, there is no bias, and: for a
    2-D A and a 2-D B, offsets are given and the last dimension of B (N) is
    at least 32; for a 2-D A and a 3-D B, offsets are given and the last
    dimension of A and the second-to-last of B (both K) are at least 32;
    for a 3-D A and a 2-D B, offsets are given and the second-to-last
    dimension of B (K) is at least 32; for a 3-D A and a 3-D B, offsets are
    absent and the last dimensions of A (K) and of B (N) are at least
    32. *)
Theorem eligibility_gate_table (env : Env) (g1 g2 m k1 k2 n : Z)
    (stride_a stride_b : list Z) (dtype_a dtype_b : dtype)
    (device_a device_b : string) (offs bias : option TensorBox) :
  let a2 := mkTensorBox [m; k1] stride_a dtype_a device_a in
  let a3 := mkTensorBox [g1; m; k1] stride_a dtype_a device_a in
  let b2 := mkTensorBox [k2; n] stride_b dtype_b device_b in
  let b3 := mkTensorBox [g2; k2; n] stride_b dtype_b device_b in
  let supported := has_triton_tma_device env && is_none bias in
  can_use_triton_kernel env a2 b2 offs bias
    = Py.ret (supported && negb (is_none offs) && bool_decide (n >= 32))
  ∧ can_use_triton_kernel env a2 b3 offs bias
    = Py.ret (supported && negb (is_none offs)
              && bool_decide (k1 >= 32) && bool_decide (k2 >= 32))
  ∧ can_use_triton_kernel env a3 b2 offs bias
    = Py.ret (supported && negb (is_none offs) && bool_decide (k2 >= 32))
  ∧ can_use_triton_kernel env a3 b3 offs bias
    = Py.ret (supported && is_none offs
              && bool_decide (k1 >= 32) && bool_decide (n >= 32)).
Proof.
  intros a2 a3 b2 b3 supported. subst a2 a3 b2 b3 supported.
  unfold can_use_triton_kernel.
  destruct (has_triton_tma_device env), bias, offs; simpl;
    repeat split; try reflexivity;
    repeat (case_bool_decide; simpl); reflexivity.
Qed.

(** ** The scenarios *)

(** C7, as stated, fails: without offsets the gate refuses a 3-D A with a
    2-D B, and the layout is the 2-D [128, 256] ([128, 64] when the shape
    of B is taken as written), not [4, 128, 256]. *)
Lemma scenario_A_counterexample :
  can_use_triton_kernel example_env scenario_A_mat_a scenario_A_mat_b None None
  = Py.ret false
  ∧ output_size (grouped_mm_args scenario_A_mat_a scenario_A_mat_b None None None)
    = Py.ret [128; 256]
  ∧ can_use_triton_kernel example_env scenario_A_mat_a
      scenario_A_mat_b_as_written None None = Py.ret false
  ∧ output_size (grouped_mm_args scenario_A_mat_a scenario_A_mat_b_as_written
                   None None None)
    = Py.ret [128; 64].
Proof. vm_compute. repeat split. Qed.

(** C7, amended. For A of shape [4, 128, 64] and no offsets: with the 2-D
    B of [K = 64], [N = 256] the gate refuses the problem on every device,
    a 3-D A with a 2-D B requiring offsets, and the layout computed is
    [128, 256]; with the 3-D B of shape [4, 64, 256] the gate accepts it
    wherever tensor descriptors are supported, and the output shape is
    [4, 128, 256]. *)
Theorem scenario_A_eligibility (env : Env) :
  can_use_triton_kernel env scenario_A_mat_a scenario_A_mat_b None None
  = Py.ret false
  ∧ output_size (grouped_mm_args scenario_A_mat_a scenario_A_mat_b None None None)
    = Py.ret [128; 256]
  ∧ can_use_triton_kernel env scenario_A_mat_a scenario_A_mat_b_3d None None
    = Py.ret (has_triton_tma_device env)
  ∧ output_size (grouped_mm_args scenario_A_mat_a scenario_A_mat_b_3d
                   None None None)
    = Py.ret [4; 128; 256].
Proof.
  unfold can_use_triton_kernel.
  destruct (has_triton_tma_device env); vm_compute; repeat split.
Qed.

(** ** The dynamic-dimension flags *)

Lemma unpack2_ret {A} (l : list A) a b :
  Py.unpack2 l = Py.ret (a, b) → l = [a; b].
Proof. destruct l as [|? [|? [|? ?]]]; simpl; try done. by intros [= -> ->]. Qed.

Lemma unpack3_ret {A} (l : list A) a b c :
  Py.unpack3 l = Py.ret (a, b, c) → l = [a; b; c].
Proof.
  destruct l as [|? [|? [|? [|? ?]]]]; simpl; try done. by intros [= -> -> ->].
Qed.

(** The branch on the ranks: what it returns determines the ranks, and the
    flags are those of the table. *)
Lemma problem_shape_flags offs m1_size m2_size g m n k md nd kd :
  problem_shape offs m1_size m2_size = Py.ret (g, m, n, k, md, nd, kd) →
  (length m1_size = 2%nat ∨ length m1_size = 3%nat)
  ∧ (length m2_size = 2%nat ∨ length m2_size = 3%nat)
  ∧ (md, nd, kd) = spec_dynamic_flags (length m1_size) (length m2_size).
Proof.
  unfold problem_shape. intros H.
  repeat case_bool_decide;
    repeat (apply bind_inr in H as ([[? ?] ?] & ? & H)
            || apply bind_inr in H as ([? ?] & ? & H)
            || apply bind_inr in H as (? & ? & H));
    injection H as <- <- <- <- <- <- <-;
    repeat match goal with
           | U : Py.unpack2 _ = _ |- _ => apply unpack2_ret in U as ->
           | U : Py.unpack3 _ = _ |- _ => apply unpack3_ret in U as ->
           end;
    simpl; auto.
Qed.

(** C9. The dynamic-dimension flags of a kernel instantiation are a
    function of the operand ranks alone: whenever the lowering builds the
    keyword arguments of the template, the ranks are 2 or 3, K is dynamic
    for two 2-D operands, M for a 2-D A with a 3-D B, N for a 3-D A with a
    2-D B, and nothing for two 3-D operands; no two flags are set
    together. *)
Theorem dynamic_flags_from_ranks (env : Env)
    (mat_a mat_b scale_a scale_b : TensorBox) (offs : option TensorBox)
    (m1_size m2_size : list Z) (use_fast_accum : bool) (kw : TemplateKwargs) :
  template_kwargs env mat_a mat_b scale_a scale_b offs m1_size m2_size
    use_fast_accum = Py.ret kw →
  (length m1_size = 2%nat ∨ length m1_size = 3%nat)
  ∧ (length m2_size = 2%nat ∨ length m2_size = 3%nat)
  ∧ (M_IS_DYNAMIC kw, N_IS_DYNAMIC kw, K_IS_DYNAMIC kw)
    = spec_dynamic_flags (length m1_size) (length m2_size)
  ∧ M_IS_DYNAMIC kw && N_IS_DYNAMIC kw = false
  ∧ M_IS_DYNAMIC kw && K_IS_DYNAMIC kw = false
  ∧ N_IS_DYNAMIC kw && K_IS_DYNAMIC kw = false.
Proof.
  unfold template_kwargs. intros H.
  apply bind_inr in H as ([[[[[[g m] n] k] md] nd] kd] & Hshape & H).
  apply problem_shape_flags in Hshape as (H1 & H2 & Hflags).
  repeat (apply bind_inr in H as ([[? ?] ?] & _ & H)
          || apply bind_inr in H as (? & _ & H)).
  injection H as <-. simpl.
  split; [done|]. split; [done|]. split; [done|].
  destruct H1 as [E1|E1], H2 as [E2|E2]; rewrite E1, E2 in Hflags;
    simpl in Hflags; injection Hflags as -> -> ->; done.
Qed.

Lemma dynamic_flags_from_ranks_witness :
  ∃ kw,
    template_kwargs example_env scenario_B_mat_a scenario_B_mat_b_3d
      scenario_B_scale_a_rows scenario_B_scale_b_3d (Some scenario_B_offs)
      [1000; 64] [4; 64; 256] false = Py.ret kw
    ∧ (M_IS_DYNAMIC kw, N_IS_DYNAMIC kw, K_IS_DYNAMIC kw)
      = spec_dynamic_flags 2 3
    ∧ M_IS_DYNAMIC kw && N_IS_DYNAMIC kw = false
    ∧ M_IS_DYNAMIC kw && K_IS_DYNAMIC kw = false
    ∧ N_IS_DYNAMIC kw && K_IS_DYNAMIC kw = false.
Proof.
  eexists. split; [vm_compute; reflexivity|].
  eapply (dynamic_flags_from_ranks example_env scenario_B_mat_a
            scenario_B_mat_b_3d scenario_B_scale_a_rows scenario_B_scale_b_3d
            (Some scenario_B_offs) [1000; 64] [4; 64; 256] false).
  vm_compute. reflexivity.
Defined.

(** ** The entry of the lowering *)

Lemma lbind_inr {A B} (m : Lower A) (k : A → Lower B) st b st' :
  lbind m k st = (inr b, st') →
  ∃ a st1, m st = (inr a, st1) ∧ k a st1 = (inr b, st').
Proof.
  unfold lbind. destruct (m st) as [[e|a] st1]; [done|]. intros H.
  by exists a, st1.
Qed.

Lemma rank_asserts_pass (mat1 mat2 : TensorBox) :
  ranks_supported mat1 mat2 →
  bool_decide (length (get_size mat1) = 2%nat)
    || bool_decide (length (get_size mat1) = 3%nat) = true
  ∧ bool_decide (length (get_size mat2) = 2%nat)
    || bool_decide (length (get_size mat2) = 3%nat) = true.
Proof.
  intros [[H1|H1] [H2|H2]]; rewrite H1, H2; done.
Qed.

(** C10. A layout together with an output dtype is refused at the entry:
    [grouped_mm_args] raises an assertion error and so does the lowering,
    leaving the counter, the log and the allocator untouched, so before any
    config is generated or pruned; for operands of rank 2 or 3 the error is
    the one of the conflict. A layout without an output dtype passes the
    check and is returned unchanged, and it is the layout handed to the
    autotuner. *)
Theorem layout_with_out_dtype_rejected (env : Env)
    (mat_a mat_b scale_a scale_b : TensorBox)
    (offs bias scale_result : option TensorBox) (use_fast_accum : bool)
    (layout : Layout) (st : GlobalState) :
  (∀ d : dtype, ∃ msg,
     grouped_mm_args mat_a mat_b offs (Some layout) (Some d)
     = Py.raise (Py.AssertionError msg)
     ∧ tuned_scaled_grouped_mm env mat_a mat_b scale_a scale_b offs bias
         scale_result (Some d) use_fast_accum (Some layout) st
       = (Py.raise (Py.AssertionError msg), st)
     ∧ (ranks_supported mat_a mat_b → msg = Some out_dtype_message))
  ∧ (ranks_supported mat_a mat_b →
     grouped_mm_args mat_a mat_b offs (Some layout) None
     = Py.ret (get_size mat_a, get_size mat_b, layout, mat_a, mat_b, offs)
     ∧ ∀ call st',
         tuned_scaled_grouped_mm env mat_a mat_b scale_a scale_b offs bias
           scale_result None use_fast_accum (Some layout) st
         = (Py.ret call, st') →
         at_layout call = layout).
Proof.
  split.
  - intros d.
    assert (∃ msg,
              grouped_mm_args mat_a mat_b offs (Some layout) (Some d)
              = Py.raise (Py.AssertionError msg)
              ∧ (ranks_supported mat_a mat_b → msg = Some out_dtype_message))
      as (msg & Hargs & Hmsg).
    { unfold grouped_mm_args, ranks_supported.
      destruct (bool_decide (length (get_size mat_a) = 2%nat)
                || bool_decide (length (get_size mat_a) = 3%nat)) eqn:H1.
      - destruct (bool_decide (length (get_size mat_b) = 2%nat)
                  || bool_decide (length (get_size mat_b) = 3%nat)) eqn:H2.
        + simpl. by eexists.
        + simpl. eexists. split; [done|]. intros [_ Hb].
          apply orb_false_iff in H2 as [Hb2 Hb3].
          apply bool_decide_eq_false in Hb2, Hb3. tauto.
      - simpl. eexists. split; [done|]. intros [Ha _].
        apply orb_false_iff in H1 as [Ha2 Ha3].
        apply bool_decide_eq_false in Ha2, Ha3. tauto. }
    exists msg. split; [done|]. split; [|done].
    unfold tuned_scaled_grouped_mm, lbind, lift. by rewrite Hargs.
  - intros Hranks.
    destruct (rank_asserts_pass _ _ Hranks) as [H1 H2].
    assert (Hargs : grouped_mm_args mat_a mat_b offs (Some layout) None
                    = Py.ret (get_size mat_a, get_size mat_b, layout,
                              mat_a, mat_b, offs)).
    { unfold grouped_mm_args. rewrite H1, H2. done. }
    split; [done|].
    intros call st'. unfold tuned_scaled_grouped_mm.
    intros H. apply lbind_inr in H as (r & st1 & Hr & H).
    unfold lift in Hr. rewrite Hargs in Hr. injection Hr as <- <-.
    repeat (apply lbind_inr in H as (? & ? & _ & H)).
    unfold lret in H. by injection H as <- _.
Qed.

Lemma layout_with_out_dtype_rejected_witness :
  let layout := FixedLayout "cuda" bfloat16 [4; 128; 256] in
  grouped_mm_args scenario_A_mat_a scenario_A_mat_b_3d None (Some layout) None
  = Py.ret ([4; 128; 64], [4; 64; 256], layout,
            scenario_A_mat_a, scenario_A_mat_b_3d, None)
  ∧ ∀ call st',
      tuned_scaled_grouped_mm example_env scenario_A_mat_a scenario_A_mat_b_3d
        (fp32_tensor [4; 128] [128; 1]) (fp32_tensor [4; 256] [256; 1])
        None None None None false (Some layout) initial_state
      = (Py.ret call, st') →
      at_layout call = layout.
Proof.
  intros layout.
  apply (layout_with_out_dtype_rejected example_env scenario_A_mat_a
           scenario_A_mat_b_3d (fp32_tensor [4; 128] [128; 1])
           (fp32_tensor [4; 256] [256; 1]) None None None false layout
           initial_state).
  split; right; reflexivity.
Defined.

(** ** Scenario B *)


(** With a dynamic M and a 2-D A, a lane that is written and lies at or
    after the start of its tile reads the scale of its own absolute row,
    and that row lies in the bucket of its group. *)
Lemma dynamic_m_rows (p : Meta) (offsets : list Z) g x i :
  M_IS_DYNAMIC (meta_kw p) = true →
  A_IS_2D (meta_kw p) = true →
  0 < BLOCK_M p →
  0 ≤ x < group_num_tiles p offsets g →
  0 ≤ i →
  let e := ref_tile p offsets g x in
  row_mask p e i = true →
  scale_a_offset p e i = Some (idx_m p e i)
  ∧ group_start offsets g ≤ idx_m p e i < load_offsets offsets g.
Proof.
  intros HM HA Hbm Hx Hi e Hmask.
  unfold group_num_tiles in Hx. case_bool_decide as Hpos; [|lia].
  assert (0 < group_m_tiles p offsets g) as Hmt.
  { unfold group_m_tiles. apply cdiv_pos; [done|lia]. }
  pose proof (Z.mod_pos_bound x _ Hmt) as Hmod.
  unfold row_mask in Hmask. apply bool_decide_eq_true in Hmask.
  unfold scale_a_offset, idx_m, offs_am in *. subst e. simpl in *.
  unfold group_m_size, group_extent in *. rewrite HM, HA in *. simpl.
  split; [done|]. nia.
Qed.



(** * Further properties of the code *)

(** ** The pruner as a filter *)

(** When no verdict raises, the loop returns the filtered list. *)
Lemma prune_loop_ret env named_args configs : ∀ acc,
  Forall (λ c, ∃ v, prune_verdict env named_args c = Py.ret v) configs →
  prune_loop env named_args configs acc
  = Py.ret (acc ++ filter (λ c, prune_verdict env named_args c = Py.ret Keep)
                     configs).
Proof.
  intros acc Hall.
  destruct (prune_loop_total env named_args configs acc Hall) as [out Hout].
  rewrite Hout. by destruct (prune_loop_spec _ _ _ _ _ Hout) as [-> _].
Qed.

(** X1. The pruner only drops configs: what it returns is a subsequence of
    its input, in the input's order, and never longer. *)
Theorem prune_is_subsequence (env : Env) (named_args : TemplateKwargs)
    (configs out : list Config) :
  early_config_prune env configs named_args = Py.ret out →
  out `sublist_of` configs ∧ (length out ≤ length configs)%nat.
Proof.
  intros [-> _]%prune_loop_spec. simpl.
  split; [apply sublist_filter|apply length_filter].
Qed.

Lemma prune_is_subsequence_witness :
  pruned_or_nil example_env _NV_CONFIGS example_named_args
    `sublist_of` _NV_CONFIGS
  ∧ (length (pruned_or_nil example_env _NV_CONFIGS example_named_args)
     ≤ length _NV_CONFIGS)%nat.
Proof.
  exact (prune_is_subsequence example_env example_named_args _NV_CONFIGS _
           example_prune_returns).
Defined.

(** X2. Pruning is idempotent: pruning what the pruner returned returns it
    again. *)
Theorem prune_idempotent (env : Env) (named_args : TemplateKwargs)
    (configs out : list Config) :
  early_config_prune env configs named_args = Py.ret out →
  early_config_prune env out named_args = Py.ret out.
Proof.
  intros Hrun. destruct (prune_loop_spec _ _ _ _ _ Hrun) as [-> Hall].
  simpl. unfold early_config_prune. rewrite prune_loop_ret.
  - simpl. f_equal. rewrite list_filter_filter.
    apply list_filter_iff. tauto.
  - apply Forall_forall. intros c [Hkeep _]%list_elem_of_filter. by exists Keep.
Qed.

Lemma prune_idempotent_witness :
  early_config_prune example_env
    (pruned_or_nil example_env _NV_CONFIGS example_named_args)
    example_named_args
  = Py.ret (pruned_or_nil example_env _NV_CONFIGS example_named_args).
Proof.
  exact (prune_idempotent example_env example_named_args _NV_CONFIGS _
           example_prune_returns).
Defined.

(** X3. Pruning a concatenation: the pruner returns on [l1 ++ l2] exactly
    when it returns on both lists, and then with the concatenation of the
    two results. *)
Theorem prune_app (env : Env) (named_args : TemplateKwargs)
    (l1 l2 out : list Config) :
  early_config_prune env (l1 ++ l2) named_args = Py.ret out ↔
  ∃ out1 out2,
    early_config_prune env l1 named_args = Py.ret out1
    ∧ early_config_prune env l2 named_args = Py.ret out2
    ∧ out = out1 ++ out2.
Proof.
  unfold early_config_prune. split.
  - intros Hrun. destruct (prune_loop_spec _ _ _ _ _ Hrun) as [-> Hall].
    apply Forall_app in Hall as [H1 H2].
    eexists _, _. rewrite !prune_loop_ret by done.
    split; [done|]. split; [done|]. simpl. by rewrite filter_app.
  - intros (out1 & out2 & Hrun1 & Hrun2 & ->).
    destruct (prune_loop_spec _ _ _ _ _ Hrun1) as [-> H1].
    destruct (prune_loop_spec _ _ _ _ _ Hrun2) as [-> H2].
    rewrite prune_loop_ret by (by apply Forall_app).
    simpl. by rewrite filter_app.
Qed.

(** ** The pruner on the generated families *)

Lemma amd_config_blocks c :
  c ∈ _AMD_CONFIGS →
  ∃ bm bn bk,
    kwargs c !! "BLOCK_M" = Some bm
    ∧ kwargs c !! "BLOCK_N" = Some bn
    ∧ kwargs c !! "BLOCK_K" = Some bk
    ∧ bn ≠ 0.
Proof.
  unfold _AMD_CONFIGS. intros H.
  apply list_elem_of_bind in H as (bm & H & _).
  apply list_elem_of_bind in H as (bn & H & Hbn).
  apply list_elem_of_bind in H as (bk & H & _).
  apply list_elem_of_bind in H as (st & H & _).
  apply list_elem_of_bind in H as ([w wv] & H & _).
  apply list_elem_of_bind in H as (mi & H & _).
  apply list_elem_of_singleton in H as ->.
  exists bm, bn, bk. split_and!; [done | done | done |].
  repeat (apply elem_of_cons in Hbn as [->|Hbn]; [done|]).
  by apply elem_of_nil in Hbn.
Qed.

Lemma generated_config_blocks env c :
  c ∈ scaled_grouped_mm_configs env →
  ∃ bm bn bk,
    kwargs c !! "BLOCK_M" = Some bm
    ∧ kwargs c !! "BLOCK_N" = Some bn
    ∧ kwargs c !! "BLOCK_K" = Some bk
    ∧ bn ≠ 0.
Proof.
  unfold scaled_grouped_mm_configs.
  destruct (hip env); [apply amd_config_blocks | apply generic_config_blocks].
Qed.

(** The two derivations of a per-group extent return unless they divide by
    a zero group count. *)
Lemma per_group_returns env named_args :
  divides_by_zero_groups named_args = false →
  ∃ mpg npg,
    (if M_IS_DYNAMIC named_args
     then Py.floordiv (next_power_of_2 env (M named_args)) (G named_args)
     else Py.ret (M named_args)) = Py.ret mpg
    ∧ (if N_IS_DYNAMIC named_args
       then Py.floordiv (next_power_of_2 env (N named_args)) (G named_args)
       else Py.ret (N named_args)) = Py.ret npg.
Proof.
  unfold divides_by_zero_groups, Py.floordiv. intros Hdiv.
  destruct (M_IS_DYNAMIC named_args), (N_IS_DYNAMIC named_args);
    simpl in Hdiv; try apply bool_decide_eq_false in Hdiv;
    rewrite ?decide_False by done; by eexists _, _.
Qed.

Lemma per_group_raises env named_args :
  divides_by_zero_groups named_args = true →
  (if M_IS_DYNAMIC named_args
   then Py.floordiv (next_power_of_2 env (M named_args)) (G named_args)
   else Py.ret (M named_args)) = Py.raise Py.ZeroDivisionError
  ∨ ∃ mpg,
      (if M_IS_DYNAMIC named_args
       then Py.floordiv (next_power_of_2 env (M named_args)) (G named_args)
       else Py.ret (M named_args)) = Py.ret mpg
      ∧ (if N_IS_DYNAMIC named_args
         then Py.floordiv (next_power_of_2 env (N named_args)) (G named_args)
         else Py.ret (N named_args)) = Py.raise Py.ZeroDivisionError.
Proof.
  unfold divides_by_zero_groups, Py.floordiv.
  intros [Hdyn HG%bool_decide_eq_true]%andb_true_iff. rewrite HG.
  destruct (M_IS_DYNAMIC named_args); [by left|].
  destruct (N_IS_DYNAMIC named_args); [|done].
  right. by eexists.
Qed.

(** A verdict on a config with its three tile sizes, the width of the N
    tile not zero: it raises exactly on a zero group count divided by. *)
Lemma prune_verdict_with_blocks env named_args c bm bn bk :
  kwargs c !! "BLOCK_M" = Some bm →
  kwargs c !! "BLOCK_N" = Some bn →
  kwargs c !! "BLOCK_K" = Some bk →
  bn ≠ 0 →
  if divides_by_zero_groups named_args
  then prune_verdict env named_args c = Py.raise Py.ZeroDivisionError
  else ∃ v, prune_verdict env named_args c = Py.ret v.
Proof.
  intros Hbm Hbn Hbk Hnz.
  rewrite (prune_verdict_blocks env named_args c bm bn bk Hbm Hbn Hbk).
  destruct (divides_by_zero_groups named_args) eqn:Hdiv.
  - destruct (per_group_raises env named_args Hdiv) as [->|(mpg & -> & ->)];
      done.
  - destruct (per_group_returns env named_args Hdiv) as (mpg & npg & -> & ->).
    simpl. unfold Py.floordiv. rewrite decide_False by done. simpl.
    repeat case_match; by eexists.
Qed.

(** X4. On the generated families the pruner raises only for a zero group
    count: with a dynamic M or N and [G = 0] it raises
    [ZeroDivisionError], and in every other case, on every device, it
    returns the configs whose verdict is [Keep]. *)
Theorem prune_generated_total (env : Env) (named_args : TemplateKwargs) :
  early_config_prune env (scaled_grouped_mm_configs env) named_args
  = if divides_by_zero_groups named_args
    then Py.raise Py.ZeroDivisionError
    else Py.ret (filter (λ c, prune_verdict env named_args c = Py.ret Keep)
                   (scaled_grouped_mm_configs env)).
Proof.
  destruct (divides_by_zero_groups named_args) eqn:Hdiv.
  - assert (∃ c rest, scaled_grouped_mm_configs env = c :: rest)
      as (c & rest & Hcons).
    { unfold scaled_grouped_mm_configs. destruct (hip env); by eexists _, _. }
    assert (c ∈ scaled_grouped_mm_configs env) as Hc.
    { rewrite Hcons. by left. }
    apply generated_config_blocks in Hc as (bm & bn & bk & Hbm & Hbn & Hbk & Hnz).
    pose proof (prune_verdict_with_blocks env named_args c bm bn bk
                  Hbm Hbn Hbk Hnz) as Hv.
    rewrite Hdiv in Hv.
    unfold early_config_prune. rewrite Hcons. simpl. by rewrite Hv.
  - unfold early_config_prune. rewrite prune_loop_ret; [done|].
    apply Forall_forall.
    intros c (bm & bn & bk & Hbm & Hbn & Hbk & Hnz)%generated_config_blocks.
    pose proof (prune_verdict_with_blocks env named_args c bm bn bk
                  Hbm Hbn Hbk Hnz) as Hv.
    by rewrite Hdiv in Hv.
Qed.

(** X5. A config without one of the keys [BLOCK_M], [BLOCK_N], [BLOCK_K]
    anywhere in the list makes the pruner raise: nothing is returned, not
    even the configs before it. *)
Theorem prune_missing_key (env : Env) (named_args : TemplateKwargs)
    (configs : list Config) (c : Config) (key : string) :
  c ∈ configs →
  key ∈ ["BLOCK_M"; "BLOCK_N"; "BLOCK_K"] →
  kwargs c !! key = None →
  ∃ e, early_config_prune env configs named_args = Py.raise e.
Proof.
  intros Hc Hkey Hnone.
  destruct (early_config_prune env configs named_args) as [e|out] eqn:Hrun;
    [by exists e|].
  exfalso.
  destruct (prune_loop_spec _ _ _ _ _ Hrun) as [_ Hall].
  rewrite Forall_forall in Hall. destruct (Hall c Hc) as [v Hv].
  unfold prune_verdict in Hv.
  apply bind_inr in Hv as (bm & Hbm & Hv).
  apply bind_inr in Hv as (bn & Hbn & Hv).
  apply bind_inr in Hv as (bk & Hbk & _).
  unfold Py.getitem in Hbm, Hbn, Hbk.
  repeat (apply elem_of_cons in Hkey as [->|Hkey];
          [by rewrite Hnone in *|]).
  by apply elem_of_nil in Hkey.
Qed.

Lemma prune_missing_key_witness :
  ∃ e,
    early_config_prune example_env
      (example_config :: example_config_no_block_n :: _NV_CONFIGS)
      example_named_args = Py.raise e.
Proof.
  apply (prune_missing_key example_env example_named_args
           (example_config :: example_config_no_block_n :: _NV_CONFIGS)
           example_config_no_block_n "BLOCK_N").
  - right. left.
  - right. left.
  - reflexivity.
Defined.

(** ** What survives the pruner *)

Lemma verdict_blocks_exist env named_args c v :
  prune_verdict env named_args c = Py.ret v →
  ∃ bm bn bk,
    kwargs c !! "BLOCK_M" = Some bm
    ∧ kwargs c !! "BLOCK_N" = Some bn
    ∧ kwargs c !! "BLOCK_K" = Some bk.
Proof.
  unfold prune_verdict, Py.getitem. intros Hv.
  apply bind_inr in Hv as (bm & Hbm & Hv).
  apply bind_inr in Hv as (bn & Hbn & Hv).
  apply bind_inr in Hv as (bk & Hbk & _).
  destruct (kwargs c !! "BLOCK_M") as [bm'|]; [|done].
  destruct (kwargs c !! "BLOCK_N") as [bn'|]; [|done].
  destruct (kwargs c !! "BLOCK_K") as [bk'|]; [|done].
  by exists bm', bn', bk'.
Qed.

(** X6. Every config the pruner returns fits the device and the problem:
    its estimate fits the shared memory; its M tile is at most the family
    floor or at most twice the rows per group, and at least 128 or at
    least half the rows per group; its N tile is not zero, is at most the
    family floor or gives at least as many work units as the device has
    compute units, and is at least 128 or gives at most twice as many. The
    number of warps is not constrained. *)
Theorem survivors_within_bounds (env : Env) (named_args : TemplateKwargs)
    (configs out : list Config) (c : Config) :
  early_config_prune env configs named_args = Py.ret out →
  c ∈ out →
  ∃ bm bn bk mpg npg,
    kwargs c !! "BLOCK_M" = Some bm
    ∧ kwargs c !! "BLOCK_N" = Some bn
    ∧ kwargs c !! "BLOCK_K" = Some bk
    ∧ mpg = (if M_IS_DYNAMIC named_args
             then next_power_of_2 env (M named_args) `div` G named_args
             else M named_args)
    ∧ npg = (if N_IS_DYNAMIC named_args
             then next_power_of_2 env (N named_args) `div` G named_args
             else N named_args)
    ∧ required_shared_memory env bm bn bk (num_stages c)
      ≤ get_gpu_shared_memory env
    ∧ (bm ≤ (if hip env then 32 else 64) ∨ bm ≤ mpg * 2)
    ∧ (128 ≤ bm ∨ mpg `div` 2 ≤ bm)
    ∧ bn ≠ 0
    ∧ (bn ≤ (if hip env then 32 else 64)
       ∨ get_num_sms env ≤ G named_args * mpg * (npg `div` bn))
    ∧ (128 ≤ bn ∨ G named_args * mpg * (npg `div` bn) ≤ 2 * get_num_sms env).
Proof.
  intros Hrun Hc.
  apply (elem_of_early_config_prune _ _ _ _ _ Hrun) in Hc as [_ Hkeep].
  destruct (verdict_blocks_exist _ _ _ _ Hkeep) as (bm & bn & bk & Hbm & Hbn & Hbk).
  rewrite (prune_verdict_blocks env named_args c bm bn bk Hbm Hbn Hbk) in Hkeep.
  apply bind_inr in Hkeep as (mpg & Hmpg & Hkeep).
  apply bind_inr in Hkeep as (npg & Hnpg & Hkeep).
  exists bm, bn, bk, mpg, npg.
  assert (mpg = if M_IS_DYNAMIC named_args
                then next_power_of_2 env (M named_args) `div` G named_args
                else M named_args) as Hm.
  { destruct (M_IS_DYNAMIC named_args).
    - by apply floordiv_ret in Hmpg as [_ ->].
    - by injection Hmpg as <-. }
  assert (npg = if N_IS_DYNAMIC named_args
                then next_power_of_2 env (N named_args) `div` G named_args
                else N named_args) as Hn.
  { destruct (N_IS_DYNAMIC named_args).
    - by apply floordiv_ret in Hnpg as [_ ->].
    - by injection Hnpg as <-. }
  split_and!; try done; clear Hm Hn Hmpg Hnpg.
  all: case_bool_decide as Hsm; [done|].
  all: destruct (bool_decide (bm > _) && bool_decide (bm > mpg * 2)) eqn:H2;
         [done|].
  all: destruct (bool_decide (bm < 128) && bool_decide (bm < mpg `div` 2))
         eqn:H3; [done|].
  all: apply bind_inr in Hkeep as (nt & [Hnz ->]%floordiv_ret & Hkeep).
  all: destruct (bool_decide (bn > _) && bool_decide (_ < get_num_sms env))
         eqn:H4; [done|].
  all: destruct (bool_decide (bn < 128) && bool_decide (_ > 2 * get_num_sms env))
         eqn:H5; [done|].
  all: apply andb_false_iff in H2, H3, H4, H5.
  all: rewrite !bool_decide_eq_false in H2, H3, H4, H5.
  all: try done; try lia.
Qed.

Lemma survivors_within_bounds_witness :
  ∃ bm bn bk mpg npg,
    kwargs example_config_warps8 !! "BLOCK_M" = Some bm
    ∧ kwargs example_config_warps8 !! "BLOCK_N" = Some bn
    ∧ kwargs example_config_warps8 !! "BLOCK_K" = Some bk
    ∧ mpg = example_next_power_of_2 30 `div` 4
    ∧ npg = 1024
    ∧ required_shared_memory example_env bm bn bk 3 ≤ 232448
    ∧ (bm ≤ 64 ∨ bm ≤ mpg * 2)
    ∧ (128 ≤ bm ∨ mpg `div` 2 ≤ bm)
    ∧ bn ≠ 0
    ∧ (bn ≤ 64 ∨ 132 ≤ 4 * mpg * (npg `div` bn))
    ∧ (128 ≤ bn ∨ 4 * mpg * (npg `div` bn) ≤ 2 * 132).
Proof.
  apply (survivors_within_bounds example_env example_named_args _NV_CONFIGS
           (pruned_or_nil example_env _NV_CONFIGS example_named_args)
           example_config_warps8 example_prune_returns).
  apply (bool_decide_unpack _). vm_compute. exact I.
Defined.

Lemma filter_sublist_impl {A} (P Q : A → Prop)
    `{!∀ x, Decision (P x), !∀ x, Decision (Q x)} (l : list A) :
  (∀ x, x ∈ l → P x → Q x) → filter P l `sublist_of` filter Q l.
Proof.
  induction l as [|x l IH]; intros Himpl; [done|].
  rewrite !filter_cons.
  assert (filter P l `sublist_of` filter Q l) as Hrec.
  { apply IH. intros y Hy. apply Himpl. by right. }
  destruct (decide (P x)) as [HP|HP].
  - rewrite decide_True by (apply Himpl; [by left|done]).
    by apply sublist_skip.
  - destruct (decide (Q x)); [by apply sublist_cons|done].
Qed.

(** A config kept on a device is kept on the same device with more shared
    memory. *)
Lemma keep_with_more_shared_memory env named_args c limit :
  get_gpu_shared_memory env ≤ limit →
  prune_verdict env named_args c = Py.ret Keep →
  prune_verdict (with_shared_memory env limit) named_args c = Py.ret Keep.
Proof.
  intros Hle Hkeep.
  destruct (verdict_blocks_exist _ _ _ _ Hkeep) as (bm & bn & bk & Hbm & Hbn & Hbk).
  rewrite (prune_verdict_blocks env named_args c bm bn bk Hbm Hbn Hbk) in Hkeep.
  rewrite (prune_verdict_blocks (with_shared_memory env limit) named_args c
             bm bn bk Hbm Hbn Hbk).
  unfold required_shared_memory in *. simpl.
  destruct (if M_IS_DYNAMIC named_args then _ else _) as [?|mpg]; [done|].
  destruct (if N_IS_DYNAMIC named_args then _ else _) as [?|npg]; [done|].
  simpl in *.
  case_bool_decide as Hsm; [done|].
  rewrite bool_decide_false by lia. done.
Qed.

(** X7. More shared memory never prunes more: when the pruner returns for a
    device and for the same device with a larger limit of shared memory,
    the configs kept under the smaller limit are kept under the larger one,
    in the same order. *)
Theorem more_shared_memory_keeps_more (env : Env) (named_args : TemplateKwargs)
    (configs out out' : list Config) (limit : Z) :
  get_gpu_shared_memory env ≤ limit →
  early_config_prune env configs named_args = Py.ret out →
  early_config_prune (with_shared_memory env limit) configs named_args
  = Py.ret out' →
  out `sublist_of` out'.
Proof.
  intros Hle [-> _]%prune_loop_spec [-> _]%prune_loop_spec. simpl.
  apply filter_sublist_impl. intros c _.
  by apply keep_with_more_shared_memory.
Qed.

Lemma more_shared_memory_keeps_more_witness :
  pruned_or_nil (with_shared_memory example_env 40000) _NV_CONFIGS
    example_named_args
  `sublist_of` pruned_or_nil example_env _NV_CONFIGS example_named_args.
Proof.
  apply (more_shared_memory_keeps_more (with_shared_memory example_env 40000)
           example_named_args _NV_CONFIGS _ _ 232448).
  - vm_compute. discriminate.
  - vm_compute. reflexivity.
  - vm_compute. reflexivity.
Defined.

(** ** No duplicate candidates *)

Lemma NoDup_generated_configs env : NoDup (scaled_grouped_mm_configs env).
Proof.
  unfold scaled_grouped_mm_configs.
  destruct (hip env); apply (bool_decide_unpack _); vm_compute; exact I.
Qed.

(** X8. No generated kernel is benchmarked twice: each family lists its
    configs without repetition, and so does what the pruner returns for
    it. *)
Theorem pruned_generated_configs_distinct (env : Env)
    (named_args : TemplateKwargs) (out : list Config) :
  early_config_prune env (scaled_grouped_mm_configs env) named_args = Py.ret out →
  NoDup (scaled_grouped_mm_configs env) ∧ NoDup out.
Proof.
  intros [-> _]%prune_loop_spec. simpl.
  split; [apply NoDup_generated_configs|].
  apply NoDup_filter, NoDup_generated_configs.
Qed.

Lemma pruned_generated_configs_distinct_witness :
  NoDup (scaled_grouped_mm_configs example_env)
  ∧ NoDup (pruned_or_nil example_env _NV_CONFIGS example_named_args).
Proof.
  exact (pruned_generated_configs_distinct example_env example_named_args _
           example_prune_returns).
Defined.

(** ** The arguments of the lowering *)

Lemma index_0_nonempty {A} (l : list A) :
  (∃ a, Py.index l 0 = Py.ret a) ↔ l ≠ [].
Proof.
  destruct l as [|a l]; [|by split; [|eexists]].
  split; [by intros [a Ha]|done].
Qed.

Lemma grouped_mm_args_accepted (mat1 mat2 : TensorBox)
    (offs : option TensorBox) (layout : option Layout)
    (out_dtype : option dtype) :
  (∃ l, grouped_mm_args mat1 mat2 offs layout out_dtype
        = Py.ret (get_size mat1, get_size mat2, l, mat1, mat2, offs))
  ↔ args_accepted mat1 mat2 offs layout out_dtype.
Proof.
  split.
  - intros [l Hret]. unfold grouped_mm_args in Hret.
    apply bind_inr in Hret as ([] & H1 & Hret).
    apply bind_inr in Hret as ([] & H2 & Hret).
    apply bind_inr in Hret as (l' & Hl & _).
    unfold Py.assert in H1, H2.
    destruct (_ || _) eqn:E1 in H1; [|done].
    destruct (_ || _) eqn:E2 in H2; [|done].
    apply orb_true_iff in E1, E2.
    rewrite !bool_decide_eq_true in E1, E2.
    split; [done|].
    destruct layout as [l0|].
    + apply bind_inr in Hl as ([] & Hd & _).
      by destruct out_dtype.
    + intros L1 L2. apply bind_inr in Hl as (dims & Hdims & _).
      rewrite !bool_decide_true in Hdims by done.
      apply bind_inr in Hdims as ([] & Hoffs & Hdims).
      destruct offs as [o|]; [|done].
      apply bind_inr in Hdims as (d0 & Hd0 & _).
      exists o. split; [done|]. apply index_0_nonempty. by exists d0.
  - intros [[R1 R2] Hl]. unfold grouped_mm_args.
    assert (bool_decide (length (get_size mat1) = 2%nat)
            || bool_decide (length (get_size mat1) = 3%nat) = true) as ->.
    { destruct R1 as [-> | ->]; done. }
    assert (bool_decide (length (get_size mat2) = 2%nat)
            || bool_decide (length (get_size mat2) = 3%nat) = true) as ->.
    { destruct R2 as [-> | ->]; done. }
    simpl. destruct layout as [l0|].
    + rewrite Hl. simpl. by eexists.
    + destruct mat1 as [s1 ? ? ?], mat2 as [s2 ? ? ?]. simpl in *.
      destruct s1 as [|a1 [|a2 [|a3 [|a4 s1]]]]; simpl in R1;
        try (destruct R1; discriminate);
        destruct s2 as [|b1 [|b2 [|b3 [|b4 s2]]]]; simpl in R2;
        try (destruct R2; discriminate); simpl.
      * destruct Hl as (o & -> & Ho); [done | done |].
        apply index_0_nonempty in Ho as [d0 Hd0]. simpl.
        rewrite Hd0. simpl. by eexists.
      * by eexists.
      * by eexists.
      * by eexists.
Qed.


Example grouped_mm_args_accepts_scenario :
  ∃ l, grouped_mm_args scenario_B_mat_a scenario_B_mat_b_3d
         (Some scenario_B_offs) None None
       = Py.ret (get_size scenario_B_mat_a, get_size scenario_B_mat_b_3d, l,
                 scenario_B_mat_a, scenario_B_mat_b_3d, Some scenario_B_offs).
Proof. eexists. vm_compute. reflexivity. Qed.

Lemma guard_equals_ret a b x : guard_equals a b = Py.ret x → x = a ∧ a = b.
Proof.
  unfold guard_equals, Py.assert. case_bool_decide; [|done].
  simpl. by intros [= <-].
Qed.

(** X10. The layout built when none is supplied agrees with the shape the
    lowering derives: it lives on the device of the first operand, has the
    requested dtype or else the dtype of the first operand, and its size is
    [[g, m, n]] when neither M nor N is dynamic and the flattened [[m, n]]
    otherwise. *)
Theorem default_layout_matches_shape (mat1 mat2 : TensorBox)
    (offs : option TensorBox) (out_dtype : option dtype) (l : Layout)
    (g m n k : Z) (md nd kd : bool) :
  grouped_mm_args mat1 mat2 offs None out_dtype
  = Py.ret (get_size mat1, get_size mat2, l, mat1, mat2, offs) →
  problem_shape offs (get_size mat1) (get_size mat2)
  = Py.ret (g, m, n, k, md, nd, kd) →
  layout_device l = get_device mat1
  ∧ layout_dtype l = default (get_dtype mat1) out_dtype
  ∧ layout_size l = (if md || nd then [m; n] else [g; m; n]).
Proof.
  intros Hargs Hshape.
  unfold problem_shape in Hshape. unfold grouped_mm_args in Hargs.
  destruct mat1 as [s1 st1 dt1 dev1], mat2 as [s2 st2 dt2 dev2]. simpl in *.
  repeat case_bool_decide;
    repeat (apply bind_inr in Hshape as ([[? ?] ?] & ? & Hshape)
            || apply bind_inr in Hshape as ([? ?] & ? & Hshape)
            || apply bind_inr in Hshape as (? & ? & Hshape));
    injection Hshape as <- <- <- <- <- <- <-;
    repeat match goal with
           | U : Py.unpack2 _ = _ |- _ => apply unpack2_ret in U as ->
           | U : Py.unpack3 _ = _ |- _ => apply unpack3_ret in U as ->
           | U : guard_equals _ _ = _ |- _ => apply guard_equals_ret in U as [-> ?]
           end;
    simpl in *; try done.
  - destruct offs as [o|]; [|done]. simpl in Hargs.
    match goal with H : Py.index (get_size o) 0 = inr _ |- _ => rewrite H in Hargs end.
    simpl in Hargs. by injection Hargs as <-.
  - by injection Hargs as <-.
  - by injection Hargs as <-.
  - by injection Hargs as <-.
Qed.

Lemma default_layout_matches_shape_witness :
  ∃ l,
    layout_device l = "cuda"
    ∧ layout_dtype l = default float8_e4m3fn (Some bfloat16)
    ∧ layout_size l = [1000; 256].
Proof.
  eexists.
  apply (default_layout_matches_shape scenario_B_mat_a scenario_B_mat_b_3d
           (Some scenario_B_offs) (Some bfloat16) _ 4 1000 256 64
           true false false).
  - vm_compute. reflexivity.
  - vm_compute. reflexivity.
Defined.

(** ** The shape analysis of the lowering *)

Lemma guard_equals_same a : guard_equals a a = Py.ret a.
Proof. unfold guard_equals, Py.assert. by rewrite bool_decide_true. Qed.

(** X11. The branch on the ranks returns exactly when the shapes agree;
    in every other case (a rank other than 2 or 3, a mismatch of K or of
    the group count, missing or rank-zero offsets for two 2-D operands) it
    raises, and no kernel is instantiated. *)
Theorem problem_shape_returns (offs : option TensorBox)
    (m1_size m2_size : list Z) :
  (∃ r, problem_shape offs m1_size m2_size = Py.ret r)
  ↔ shapes_agree offs m1_size m2_size.
Proof.
  unfold problem_shape, shapes_agree, has_dim0.
  destruct m1_size as [|a1 [|a2 [|a3 [|a4 s1]]]];
    destruct m2_size as [|b1 [|b2 [|b3 [|b4 s2]]]]; simpl;
    try (split; [by intros [? ?] | done]).
  - split.
    + intros [r Hr].
      apply bind_inr in Hr as (g & Hg & Hr).
      apply bind_inr in Hr as (k & [_ ->]%guard_equals_ret & _).
      split; [done|]. destruct offs as [o|]; [|done].
      exists o. split; [done|]. apply index_0_nonempty. by exists g.
    + intros [-> (o & -> & [g Hg]%index_0_nonempty)].
      rewrite Hg. simpl. rewrite guard_equals_same. by eexists.
  - split.
    + intros [r Hr]. by apply bind_inr in Hr as (k & [_ ->]%guard_equals_ret & _).
    + intros ->. rewrite guard_equals_same. by eexists.
  - split.
    + intros [r Hr]. by apply bind_inr in Hr as (k & [_ ->]%guard_equals_ret & _).
    + intros ->. rewrite guard_equals_same. by eexists.
  - split.
    + intros [r Hr].
      apply bind_inr in Hr as (g & [_ ->]%guard_equals_ret & Hr).
      by apply bind_inr in Hr as (k & [_ ->]%guard_equals_ret & _).
    + intros [-> ->]. rewrite !guard_equals_same. by eexists.
Qed.

(** X12. The keyword arguments agree with the shape: whenever the lowering
    builds them for operands [mat_a] and [mat_b], the descriptor sizes of A
    are [M] and [K] and those of B are [N] and [K], B being read with its
    last two dimensions swapped; an operand is flagged 2-D exactly when its
    rank is 2, and its group size, group stride and scale group stride are
    present exactly when it is not; the group size of a 3-D operand is
    [G]. *)
Theorem template_kwargs_consistent (env : Env)
    (mat_a mat_b scale_a scale_b : TensorBox) (offs : option TensorBox)
    (use_fast_accum : bool) (kw : TemplateKwargs) :
  template_kwargs env mat_a mat_b scale_a scale_b offs (get_size mat_a)
    (get_size mat_b) use_fast_accum = Py.ret kw →
  A_SIZE_M kw = M kw ∧ A_SIZE_K kw = K kw
  ∧ B_SIZE_N kw = N kw ∧ B_SIZE_K kw = K kw
  ∧ A_IS_2D kw = bool_decide (length (get_size mat_a) = 2%nat)
  ∧ B_IS_2D kw = bool_decide (length (get_size mat_b) = 2%nat)
  ∧ (if A_IS_2D kw
     then A_SIZE_G kw = None ∧ A_STRIDE_G kw = None ∧ SCALE_A_STRIDE_G kw = None
     else A_SIZE_G kw = Some (G kw) ∧ is_Some (A_STRIDE_G kw)
          ∧ is_Some (SCALE_A_STRIDE_G kw))
  ∧ (if B_IS_2D kw
     then B_SIZE_G kw = None ∧ B_STRIDE_G kw = None ∧ SCALE_B_STRIDE_G kw = None
     else B_SIZE_G kw = Some (G kw) ∧ is_Some (B_STRIDE_G kw)
          ∧ is_Some (SCALE_B_STRIDE_G kw))
  ∧ NUM_SMS kw = get_num_sms env
  ∧ USE_TMA_LOAD kw = true.
Proof.
  unfold template_kwargs. intros H.
  apply bind_inr in H as ([[[[[[g m] n] k] md] nd] kd] & Hshape & H).
  destruct mat_a as [s1 st1 dt1 dev1], mat_b as [s2 st2 dt2 dev2].
  simpl in *. unfold problem_shape in Hshape.
  destruct s1 as [|a1 [|a2 [|a3 [|a4 s1]]]]; try done;
    destruct s2 as [|b1 [|b2 [|b3 [|b4 s2]]]]; try done; simpl in *.
  all: repeat (apply bind_inr in Hshape as (? & ? & Hshape)).
  all: repeat match goal with
              | U : guard_equals _ _ = _ |- _ =>
                  apply guard_equals_ret in U as [-> ?]
              end.
  all: injection Hshape as <- <- <- <- <- <- <-.
  all: repeat (apply bind_inr in H as ([[? ?] ?] & ? & H)
               || apply bind_inr in H as (? & ? & H)).
  all: injection H as <-; simpl.
  all: repeat match goal with
              | U : Py.bind _ _ = inr _ |- _ =>
                  apply bind_inr in U as (? & ? & U)
              | U : Py.index (_ :: _) _ = inr _ |- _ =>
                  vm_compute in U; injection U as <-
              | U : inr _ = inr _ |- _ => injection U as <- <- <-
              | U : Py.ret _ = inr _ |- _ => injection U as <- <- <-
              end.
  all: subst; split_and!; by eauto.
Qed.

Lemma template_kwargs_consistent_witness :
  ∃ kw,
    A_SIZE_M kw = M kw ∧ A_SIZE_K kw = K kw
    ∧ B_SIZE_N kw = N kw ∧ B_SIZE_K kw = K kw
    ∧ A_IS_2D kw = true
    ∧ B_IS_2D kw = false
    ∧ (if A_IS_2D kw
       then A_SIZE_G kw = None ∧ A_STRIDE_G kw = None ∧ SCALE_A_STRIDE_G kw = None
       else A_SIZE_G kw = Some (G kw) ∧ is_Some (A_STRIDE_G kw)
            ∧ is_Some (SCALE_A_STRIDE_G kw))
    ∧ (if B_IS_2D kw
       then B_SIZE_G kw = None ∧ B_STRIDE_G kw = None ∧ SCALE_B_STRIDE_G kw = None
       else B_SIZE_G kw = Some (G kw) ∧ is_Some (B_STRIDE_G kw)
            ∧ is_Some (SCALE_B_STRIDE_G kw))
    ∧ NUM_SMS kw = 132
    ∧ USE_TMA_LOAD kw = true.
Proof.
  eexists.
  apply (template_kwargs_consistent example_env scenario_B_mat_a
           scenario_B_mat_b_3d scenario_B_scale_a_rows scenario_B_scale_b_3d
           (Some scenario_B_offs) false).
  vm_compute. reflexivity.
Defined.

(** ** The gate without sizes *)

Lemma can_use_refused env mat_a mat_b offs bias :
  gate_refuses env mat_a mat_b offs bias →
  can_use_triton_kernel env mat_a mat_b offs bias = Py.ret false.
Proof.
  unfold gate_refuses, can_use_triton_kernel.
  intros [Htma|[Hbias|[[-> Hrank]|(Hoffs & Ha & Hb)]]].
  - by rewrite Htma.
  - destruct (has_triton_tma_device env); [|done]. by destruct bias.
  - destruct (has_triton_tma_device env); [|done].
    destruct bias; [done|]. simpl.
    repeat case_bool_decide; try done. by destruct Hrank.
  - destruct (has_triton_tma_device env); [|done].
    destruct bias; [done|]. simpl.
    rewrite !bool_decide_false by done. by destruct offs.
Qed.

(** X13. The gate turns a problem away without looking at its sizes, and
    without raising even for operands of an unsupported rank, when the
    device has no tensor descriptors, when a bias is given, when an
    operand is 2-D and there are no offsets, or when there are offsets and
    no operand is 2-D. *)
Theorem gate_refuses_false (env : Env) (mat_a mat_b : TensorBox)
    (offs bias : option TensorBox) :
  gate_refuses env mat_a mat_b offs bias →
  can_use_triton_kernel env mat_a mat_b offs bias = Py.ret false.
Proof. apply can_use_refused. Qed.


Lemma gate_refuses_false_witness :
  can_use_triton_kernel example_env (fp8_tensor [] []) (fp8_tensor [7] [1])
    (Some scenario_B_offs) None = Py.ret false.
Proof.
  apply gate_refuses_false. right. right. right.
  split; [done|]. split; simpl; lia.
Defined.

(** ** The lowering as a whole *)

(** The lowering once [grouped_mm_args] has returned. *)
Lemma tuned_after_args env mat_a mat_b scale_a scale_b offs bias scale_result
    out_dtype use_fast_accum layout l st :
  grouped_mm_args mat_a mat_b offs layout out_dtype
  = Py.ret (get_size mat_a, get_size mat_b, l, mat_a, mat_b, offs) →
  let nodes := input_nodes_of mat_a mat_b scale_a scale_b offs bias in
  let st1 := after_telemetry st (get_size mat_a) (get_size mat_b) mat_a mat_b l in
  tuned_scaled_grouped_mm env mat_a mat_b scale_a scale_b offs bias
    scale_result out_dtype use_fast_accum layout st
  = match check_supported_striding env mat_a mat_b with
    | inl e => (inl e, st1)
    | inr _ =>
        match generated_choices env mat_a mat_b scale_a scale_b offs bias
                use_fast_accum l with
        | inl e => (inl e, st1)
        | inr generated =>
            (Py.ret {| at_name := "scaled_grouped_mm";
                       at_choices :=
                         reference_choices env nodes l out_dtype use_fast_accum
                         ++ generated;
                       at_input_nodes := nodes;
                       at_layout := l |},
             after_allocator env st1)
        end
    end.
Proof.
  intros Hargs nodes st1. subst nodes st1.
  unfold tuned_scaled_grouped_mm, lbind, lift, modify, lret. rewrite Hargs.
  unfold generated_choices, reference_choices, after_allocator,
    after_telemetry, input_nodes_of, Py.and.
  simpl.
  destruct (check_supported_striding env mat_a mat_b) as [e|[]]; simpl; [done|].
  destruct (_is_static_problem env l) as [static nonzero]. simpl.
  destruct nonzero; simpl.
  - destruct (can_use_triton_kernel env mat_a mat_b offs bias) as [e|[|]];
      simpl; [done| |].
    + destruct (template_kwargs _ _ _ _ _ _ _ _ _) as [e|kw]; simpl; [done|].
      destruct (early_config_prune _ _ _) as [e|pruned]; simpl; [done|].
      destruct (has_triton_tma_device env); done.
    + rewrite app_nil_r. destruct (has_triton_tma_device env); done.
  - rewrite app_nil_r. destruct (has_triton_tma_device env); done.
Qed.

Lemma grouped_mm_args_ret_form mat1 mat2 offs layout out_dtype r :
  grouped_mm_args mat1 mat2 offs layout out_dtype = Py.ret r →
  ∃ l, r = (get_size mat1, get_size mat2, l, mat1, mat2, offs).
Proof.
  unfold grouped_mm_args. intros H.
  apply bind_inr in H as ([] & _ & H).
  apply bind_inr in H as ([] & _ & H).
  apply bind_inr in H as (l & _ & H).
  injection H as <-. by exists l.
Qed.

Lemma generated_choices_length env mat_a mat_b scale_a scale_b offs bias
    use_fast_accum l generated :
  generated_choices env mat_a mat_b scale_a scale_b offs bias use_fast_accum l
  = Py.ret generated →
  (length generated ≤ length (scaled_grouped_mm_configs env))%nat.
Proof.
  unfold generated_choices. intros H.
  apply bind_inr in H as ([|] & _ & H).
  - apply bind_inr in H as (kw & _ & H).
    apply bind_inr in H as (pruned & [-> _]%prune_loop_spec & H).
    injection H as <-. rewrite length_map. simpl. apply length_filter.
  - injection H as <-. simpl. lia.
Qed.







(** ** Every tile of a launch *)

(** What holds of the closed form of every tile holds of every tile a
    program processes. *)
Lemma every_tile_closed_form (p : Meta) (offsets : list Z) (P : TileEnv → Prop) :
  valid_launch p offsets →
  (∀ g x, (g < Z.to_nat (G (meta_kw p)))%nat →
          0 ≤ x < group_num_tiles p offsets g →
          P (ref_tile p offsets g x)) →
  every_tile p offsets P.
Proof.
  intros Hvalid HP.
  exists (Z.to_nat (tiles_before p offsets (Z.to_nat (G (meta_kw p))))).
  intros fuel Hfuel t Ht%elem_of_seqZ.
  destruct (kernel_spec p offsets Hvalid t fuel Hfuel ltac:(lia))
    as (tiles & Hk & _ & Hin).
  exists tiles. split; [done|].
  intros e (g & x & Hg & Hx & _ & ->)%Hin. by apply HP.
Qed.

Lemma cdiv_last_tile x d t : 0 < d → 0 ≤ t < cdiv x d → t * d < x.
Proof.
  unfold cdiv. intros Hd [Ht0 Ht].
  pose proof (Z_div_mod_eq_full (x + d - 1) d) as Hdm.
  pose proof (Z.mod_pos_bound (x + d - 1) d Hd) as Hmod.
  nia.
Qed.

Lemma cdiv_covers x d r : 0 < d → 0 ≤ r < x → 0 ≤ r `div` d < cdiv x d.
Proof.
  unfold cdiv. intros Hd Hr. split; [apply Z.div_pos; lia|].
  apply Z.div_lt_upper_bound; [done|].
  pose proof (Z_div_mod_eq_full (x + d - 1) d) as Hdm.
  pose proof (Z.mod_pos_bound (x + d - 1) d Hd) as Hmod.
  nia.
Qed.

(** The two tile indices of the closed form and its first lane. *)
Lemma ref_tile_in_range (p : Meta) (offsets : list Z) g x :
  valid_launch p offsets →
  0 ≤ x < group_num_tiles p offsets g →
  let e := ref_tile p offsets g x in
  0 < group_m_size p offsets g
  ∧ 0 < group_n_size p offsets g
  ∧ 0 ≤ tile_m_idx e < group_m_tiles p offsets g
  ∧ 0 ≤ tile_n_idx e < group_n_tiles p offsets g
  ∧ tile_m_idx e * BLOCK_M p < group_m_size p offsets g
  ∧ tile_n_idx e * BLOCK_N p < group_n_size p offsets g.
Proof.
  intros Hvalid Hx e. subst e. simpl.
  pose proof (vl_block_m _ _ Hvalid) as Hbm.
  pose proof (vl_block_n _ _ Hvalid) as Hbn.
  unfold group_num_tiles in Hx. case_bool_decide as Hm; [|lia].
  pose proof (group_m_tiles_pos p offsets Hvalid g ltac:(lia)) as Hmt.
  destruct (decode_range _ _ x Hmt Hx) as [Htm Htn].
  assert (0 < group_n_size p offsets g) as Hn.
  { apply (cdiv_pos_inv _ (BLOCK_N p)); [done|].
    unfold group_n_tiles in Htn. lia. }
  split_and!; try done; try lia.
  - by apply cdiv_last_tile.
  - by apply cdiv_last_tile.
Qed.



(** ** Stores inside the output *)

Lemma monotone_from_lower prev offsets g :
  monotone_from prev offsets → (g < length offsets)%nat →
  prev ≤ load_offsets offsets g.
Proof.
  revert prev g. induction offsets as [|x rest IH]; intros prev g Hmono Hg.
  - simpl in Hg. lia.
  - destruct Hmono as [Hx Hrest]. destruct g as [|g]; [done|].
    simpl in Hg. specialize (IH x g Hrest ltac:(lia)).
    unfold load_offsets in *. simpl. lia.
Qed.

Lemma load_offsets_within (offsets : list Z) (bound : Z) g :
  Forall (λ o, o ≤ bound) offsets → (g < length offsets)%nat →
  load_offsets offsets g ≤ bound.
Proof.
  intros Hall Hg. unfold load_offsets.
  destruct (offsets !! g) as [o|] eqn:Ho.
  - simpl. by apply (Forall_lookup_1 _ _ _ _ Hall Ho).
  - apply lookup_ge_None in Ho. lia.
Qed.

Lemma group_start_nonneg (offsets : list Z) g :
  monotone_from 0 offsets → (g < length offsets)%nat →
  0 ≤ group_start offsets g.
Proof.
  intros Hmono Hg. destruct g as [|g]; [done|]. simpl.
  apply monotone_from_lower; [done|lia].
Qed.


Lemma example_offsets_within : offsets_within example_meta example_offsets.
Proof.
  split; [done|]. intros _. repeat constructor; simpl; lia.
Defined.


(** ** Every element is written, once *)

Lemma stage_indices_ref_tile (p : Meta) (offsets : list Z) g x i j :
  store_indices p (ref_tile p offsets g x) i j
  = spec_store_indices p offsets g
      (offs_am p (ref_tile p offsets g x) i)
      (offs_bn p (ref_tile p offsets g x) j).
Proof.
  unfold store_indices, spec_store_indices, idx_m, idx_n. simpl.
  destruct (M_IS_DYNAMIC (meta_kw p)), (N_IS_DYNAMIC (meta_kw p)); done.
Qed.



Lemma load_offsets_mono (offsets : list Z) g h :
  monotone_from 0 offsets → (g ≤ h)%nat → (h < length offsets)%nat →
  load_offsets offsets g ≤ load_offsets offsets h.
Proof.
  intros Hmono. induction 1 as [|h Hle IH]; intros Hh; [done|].
  pose proof (monotone_from_extent 0 offsets (S h) Hmono Hh) as Hstep.
  simpl in Hstep. specialize (IH ltac:(lia)). lia.
Qed.

(** The buckets of two groups do not overlap. *)
Lemma buckets_disjoint (offsets : list Z) g h :
  monotone_from 0 offsets → (g < h)%nat → (h < length offsets)%nat →
  load_offsets offsets g ≤ group_start offsets h.
Proof.
  intros Hmono Hlt Hh. destruct h as [|h]; [lia|]. simpl.
  apply load_offsets_mono; [done|lia|lia].
Qed.

Lemma lane_unique d tm i tm' i' :
  0 ≤ i < d → 0 ≤ i' < d → tm * d + i = tm' * d + i' → tm = tm' ∧ i = i'.
Proof. intros Hi Hi' Heq. assert (tm = tm') by nia. subst. lia. Qed.

(** Two written lanes of two tiles in closed form with the same store
    indices are the same lane of the same tile. *)
Lemma stores_injective (p : Meta) (offsets : list Z) g x i j g' x' i' j' :
  valid_launch p offsets →
  (g < Z.to_nat (G (meta_kw p)))%nat → (g' < Z.to_nat (G (meta_kw p)))%nat →
  0 ≤ x < group_num_tiles p offsets g →
  0 ≤ x' < group_num_tiles p offsets g' →
  0 ≤ i < BLOCK_M p → 0 ≤ j < BLOCK_N p →
  0 ≤ i' < BLOCK_M p → 0 ≤ j' < BLOCK_N p →
  mask p (ref_tile p offsets g x) i j = true →
  mask p (ref_tile p offsets g' x') i' j' = true →
  store_indices p (ref_tile p offsets g x) i j
  = store_indices p (ref_tile p offsets g' x') i' j' →
  g = g' ∧ x = x' ∧ i = i' ∧ j = j'.
Proof.
  intros Hvalid Hg Hg' Hx Hx' Hi Hj Hi' Hj' Hmask Hmask' Heq.
  destruct (ref_tile_in_range p offsets g x Hvalid Hx)
    as (_ & _ & Htm & Htn & _ & _).
  destruct (ref_tile_in_range p offsets g' x' Hvalid Hx')
    as (_ & _ & Htm' & Htn' & _ & _).
  apply andb_true_iff in Hmask as [Hr Hc].
  apply andb_true_iff in Hmask' as [Hr' Hc'].
  unfold row_mask, col_mask in Hr, Hc, Hr', Hc'.
  apply bool_decide_eq_true in Hr, Hc, Hr', Hc'.
  rewrite !stage_indices_ref_tile in Heq.
  unfold offs_am, offs_bn in *. simpl in Hr, Hc, Hr', Hc', Htm, Htn, Htm', Htn'.
  assert (0 ≤ x `mod` group_m_tiles p offsets g * BLOCK_M p)
    by (apply Z.mul_nonneg_nonneg; lia).
  assert (0 ≤ x' `mod` group_m_tiles p offsets g' * BLOCK_M p)
    by (apply Z.mul_nonneg_nonneg; lia).
  assert (0 ≤ x `div` group_m_tiles p offsets g * BLOCK_N p)
    by (apply Z.mul_nonneg_nonneg; lia).
  assert (0 ≤ x' `div` group_m_tiles p offsets g' * BLOCK_N p)
    by (apply Z.mul_nonneg_nonneg; lia).
  assert (g = g'
          ∧ x `mod` group_m_tiles p offsets g * BLOCK_M p + i
            = x' `mod` group_m_tiles p offsets g' * BLOCK_M p + i'
          ∧ x `div` group_m_tiles p offsets g * BLOCK_N p + j
            = x' `div` group_m_tiles p offsets g' * BLOCK_N p + j')
    as (<- & Hrow & Hcol).
  { unfold spec_store_indices in Heq. simpl in Heq.
    pose proof (vl_offsets _ _ Hvalid) as Hoff.
    unfold group_m_size, group_n_size, group_extent in *.
    destruct (M_IS_DYNAMIC (meta_kw p)) eqn:HM,
             (N_IS_DYNAMIC (meta_kw p)) eqn:HN; simpl in *.
    - destruct (Hoff eq_refl) as [Hlen Hmono].
      injection Heq as Hrow Hcol.
      assert (g = g') as <-; [|lia].
      destruct (Nat.lt_trichotomy g g') as [Hlt|[->|Hlt]]; [|done|].
      + pose proof (buckets_disjoint offsets g g' Hmono Hlt ltac:(lia)). lia.
      + pose proof (buckets_disjoint offsets g' g Hmono Hlt ltac:(lia)). lia.
    - destruct (Hoff eq_refl) as [Hlen Hmono].
      injection Heq as Hrow Hcol.
      assert (g = g') as <-; [|lia].
      destruct (Nat.lt_trichotomy g g') as [Hlt|[->|Hlt]]; [|done|].
      + pose proof (buckets_disjoint offsets g g' Hmono Hlt ltac:(lia)). lia.
      + pose proof (buckets_disjoint offsets g' g Hmono Hlt ltac:(lia)). lia.
    - destruct (Hoff eq_refl) as [Hlen Hmono].
      injection Heq as Hrow Hcol.
      assert (g = g') as <-; [|lia].
      destruct (Nat.lt_trichotomy g g') as [Hlt|[->|Hlt]]; [|done|].
      + pose proof (buckets_disjoint offsets g g' Hmono Hlt ltac:(lia)). lia.
      + pose proof (buckets_disjoint offsets g' g Hmono Hlt ltac:(lia)). lia.
    - injection Heq as Hgg Hrow Hcol.
      assert (g = g') as <- by lia. lia. }
  destruct (lane_unique _ _ _ _ _ Hi Hi' Hrow) as [Hm ->].
  destruct (lane_unique _ _ _ _ _ Hj Hj' Hcol) as [Hd ->].
  split; [done|]. split; [|done]. by eapply decode_inj.
Qed.



(** ** The tiles are dealt evenly *)

Lemma program_share_step s z t :
  0 < s → 0 ≤ t < s →
  program_share s (z + 1) t
  = program_share s z t + (if decide (z `mod` s = t) then 1 else 0).
Proof.
  intros Hs Ht. unfold program_share.
  set (u := z - t + s).
  replace (z + 1 - t + s - 1) with u by (subst u; lia).
  replace (z - t + s - 1) with (u - 1) by (subst u; lia).
  pose proof (Z_div_mod_eq_full u s) as Hu.
  pose proof (Z.mod_pos_bound u s Hs) as Hr.
  destruct (decide (u `mod` s = 0)) as [Hz|Hnz].
  - rewrite decide_True.
    + symmetry.
      assert (u `div` s - 1 = (u - 1) `div` s); [|lia].
      apply (Z.div_unique _ _ _ (s - 1)); lia.
    + symmetry. apply (Z.mod_unique _ _ (u `div` s - 1)); [lia|].
      subst u. lia.
  - rewrite decide_False.
    + assert (u `div` s = (u - 1) `div` s); [|lia].
      apply (Z.div_unique _ _ _ (u `mod` s - 1)); lia.
    + intros Hzt.
      pose proof (Z_div_mod_eq_full z s) as Hzs.
      rewrite Hzt in Hzs.
      assert (u `mod` s = s * (z `div` s - u `div` s + 1)) as Hmul
        by (subst u; lia).
      assert (z `div` s - u `div` s + 1 = 0) by nia. lia.
Qed.

(** The indices of a residue class in a range, counted. *)
Lemma count_class s a t (n : nat) :
  0 < s → 0 ≤ t < s →
  Z.of_nat (length (filter (λ x, (a + x) `mod` s = t) (seqZ 0 (Z.of_nat n))))
  = program_share s (a + Z.of_nat n) t - program_share s a t.
Proof.
  intros Hs Ht. induction n as [|n IH].
  - simpl. rewrite Z.add_0_r. lia.
  - rewrite seqZ_S, Z.add_0_l, filter_app, length_app, Nat2Z.inj_add, IH.
    replace (a + Z.of_nat (S n)) with (a + Z.of_nat n + 1) by lia.
    rewrite program_share_step by done.
    rewrite filter_cons, filter_nil.
    destruct (decide ((a + Z.of_nat n) `mod` s = t)); simpl; lia.
Qed.

Section Balance.

Variable p : Meta.
Variable offsets : list Z.
Hypothesis Hvalid : valid_launch p offsets.
Variable t : Z.
Hypothesis Ht : 0 ≤ t < NUM_SMS (meta_kw p).
Variable fuel : nat.
Hypothesis Hfuel :
(Z.to_nat (tiles_before p offsets (Z.to_nat (G (meta_kw p)))) ≤ fuel)%nat.

Lemma run_groups_length n : ∀ g0 st,
(g0 + n ≤ Z.to_nat (G (meta_kw p)))%nat →
loop_inv p offsets t g0 st →
∃ tiles st',
  run_groups p offsets fuel st (seq g0 n) = Some (tiles, st')
  ∧ loop_inv p offsets t (g0 + n) st'
  ∧ Z.of_nat (length tiles)
    = program_share (NUM_SMS (meta_kw p))
        (tiles_before p offsets (g0 + n)) t
      - program_share (NUM_SMS (meta_kw p)) (tiles_before p offsets g0) t.
Proof.
pose proof (vl_num_sms _ _ Hvalid) as Hs.
induction n as [|n IH]; intros g0 st Hle Hinv.
- exists [], st. simpl. rewrite Nat.add_0_r. split_and!; [done|done|lia].
- destruct (group_step_spec p offsets Hvalid t fuel g0 st ltac:(lia) Hinv
              (group_fuel p offsets Hvalid fuel Hfuel g0 ltac:(lia)))
    as (xs & st1 & Hstep & Hinv1 & Hnd & Hin).
  destruct (IH (S g0) st1 ltac:(lia) Hinv1) as (tiles & st2 & Hrun & Hinv2 & Hlen).
  exists ((ref_tile p offsets g0 <$> xs) ++ tiles), st2.
  split_and!.
  + simpl. by rewrite Hstep, Hrun.
  + by replace (g0 + S n)%nat with (S g0 + n)%nat by lia.
  + pose proof (group_num_tiles_nonneg p offsets Hvalid g0 ltac:(lia)) as Hnn.
    assert (xs ≡ₚ filter (λ x, (tiles_before p offsets g0 + x)
                                 `mod` NUM_SMS (meta_kw p) = t)
                    (seqZ 0 (Z.of_nat (Z.to_nat (group_num_tiles p offsets g0)))))
      as Hperm.
    { apply NoDup_Permutation; [done| |].
      - apply NoDup_filter, NoDup_seqZ.
      - intros x. rewrite Hin, list_elem_of_filter, elem_of_seqZ. lia. }
    rewrite length_app, length_fmap, Nat2Z.inj_add, Hlen.
    rewrite (Permutation_length Hperm), count_class by done.
    rewrite Z2Nat.id by done.
    replace (g0 + S n)%nat with (S g0 + n)%nat by lia. simpl. lia.
Qed.

Lemma kernel_length :
∃ tiles,
  kernel p offsets fuel t = Some tiles
  ∧ Z.of_nat (length tiles)
    = program_share (NUM_SMS (meta_kw p)) (total_tiles p offsets) t.
Proof.
destruct (run_groups_length (Z.to_nat (G (meta_kw p))) 0
            {| tidx := t; iterated_tiles := 0; m_end_offset := 0;
               n_end_offset := 0; k_end_offset := 0 |})
  as (tiles & st' & Hrun & _ & Hlen).
{ lia. }
{ constructor; simpl; try done; try lia. apply Z.mod_small. lia. }
exists tiles. unfold kernel. rewrite Hrun. split; [done|].
rewrite Hlen. simpl. unfold total_tiles, program_share.
rewrite (Z.div_small (0 - t + _ - 1)) by lia. lia.
Qed.

End Balance.



(** ** Descriptor loads *)

Lemma to_int32_small x : 0 ≤ x < 2 ^ 31 → to_int32 x = x.
Proof. intros Hx. unfold to_int32. rewrite Z.mod_small; lia. Qed.



(** ** What the pruner reads *)

Lemma prune_verdict_same env (a b : TemplateKwargs) c :
  same_for_pruner a b → prune_verdict env a c = prune_verdict env b c.
Proof.
  intros (HG & HM & HN & HMd & HNd). unfold prune_verdict.
  by rewrite HG, HM, HN, HMd, HNd.
Qed.

(** X23. The pruner reads the problem only through [G], [M], [N] and the
    dynamic flags of M and N: two dictionaries that agree on these give the
    same result, raised or returned, whatever [K], the strides, the number
    of programs and the other flags are. *)
Theorem prune_reads_only_shape (env : Env) (configs : list Config)
    (a b : TemplateKwargs) :
  same_for_pruner a b →
  early_config_prune env configs a = early_config_prune env configs b.
Proof.
  intros Hsame. unfold early_config_prune. generalize (@nil Config).
  induction configs as [|c configs IH]; intros acc; [done|].
  simpl. rewrite (prune_verdict_same env a b c Hsame).
  destruct (prune_verdict env b c) as [e|v]; [done|]. simpl. apply IH.
Qed.

Lemma prune_reads_only_shape_witness :
  early_config_prune example_env _NV_CONFIGS example_named_args
  = early_config_prune example_env _NV_CONFIGS
      {| G := 4; M := 30; N := 1024; K := 7;
         A_IS_2D := false; B_IS_2D := true;
         M_IS_DYNAMIC := true; N_IS_DYNAMIC := false; K_IS_DYNAMIC := true;
         NUM_SMS := 1; USE_TMA_LOAD := false; USE_FAST_ACCUM := true;
         A_SIZE_M := 0; A_SIZE_K := 0; A_STRIDE_M := 0; A_STRIDE_K := 0;
         A_SIZE_G := None; A_STRIDE_G := None; SCALE_A_STRIDE_G := None;
         B_SIZE_N := 0; B_SIZE_K := 0; B_STRIDE_N := 0; B_STRIDE_K := 0;
         B_SIZE_G := None; B_STRIDE_G := None; SCALE_B_STRIDE_G := None |}.
Proof.
  apply prune_reads_only_shape. repeat split.
Defined.
